(** * ng2-grid: the Grid component (src/grid.ts)

    A shallow embedding of the [Grid] class: its page, sort, filter and
    column state, the page-button window of [paginate], the sort-type
    toggle, column inference from the first data row and the selection
    query, followed by the properties the specification states about
    them.

    Numbers are integers ([Z]).  The class only adds, subtracts, compares
    and halves them, and divides a record count by a page size; on
    integers in the safe range the floating-point results of these
    operations are the exact ones. *)

From Stdlib Require Import ZArith List String Ascii Bool Lia DecimalString.
Import ListNotations.

Local Open Scope Z_scope.
Set Warnings "-register-all".

(** ** JavaScript values and helpers *)

Module JS.

(** Data rows are [any] in the source.  A value is a scalar or an object;
    an object is the list of its own enumerable properties in the order
    [for..in] and [_.keys] enumerate them (lookups take the first
    binding of a key).  An array is the object whose keys are its
    indices. *)
Inductive JValue : Type :=
| JUndefined
| JNull
| JBool (b : bool)
| JNum (n : Z)
| JStr (s : string)
| JObj (fields : list (string * JValue)).

(** The outcome of code that may throw a [TypeError]. *)
Inductive Result (A : Type) : Type :=
| Ok (a : A)
| TypeError.
Arguments Ok {A} a.
Arguments TypeError {A}.

Definition bind {A B : Type} (r : Result A) (k : A -> Result B) : Result B :=
  match r with
  | Ok a => k a
  | TypeError => TypeError
  end.

(** [_.isObject]: objects (and arrays), not [null] and not scalars. *)
Definition isObject (v : JValue) : bool :=
  match v with
  | JObj _ => true
  | _ => false
  end.

Definition nullish (v : JValue) : bool :=
  match v with
  | JUndefined | JNull => true
  | _ => false
  end.

(** Truthiness, as tested by [if (v)]. *)
Definition truthy (v : JValue) : bool :=
  match v with
  | JUndefined | JNull => false
  | JBool b => b
  | JNum n => negb (n =? 0)
  | JStr s => negb (String.eqb s EmptyString)
  | JObj _ => true
  end.

(** The key of index [i] of a string or an array: its decimal numeral. *)
Definition index_key (i : nat) : string :=
  NilZero.string_of_uint (Nat.to_uint i).

(** A string primitive has one enumerable property per character. *)
Definition string_chars (s : string) : list (string * JValue) :=
  combine (map index_key (seq 0 (String.length s)))
          (map (fun c => JStr (String c EmptyString)) (list_ascii_of_string s)).

(** Own enumerable properties, in enumeration order. *)
Definition own_fields (v : JValue) : list (string * JValue) :=
  match v with
  | JObj fields => fields
  | JStr s => string_chars s
  | _ => []
  end.

(** [_.keys(v)] and the keys visited by [for (key in v)]. *)
Definition keys (v : JValue) : list string := map fst (own_fields v).

Fixpoint lookup_field (k : string) (fields : list (string * JValue)) : JValue :=
  match fields with
  | [] => JUndefined
  | (k', v) :: rest => if String.eqb k k' then v else lookup_field k rest
  end.

(** [v[k]], read among the own properties of [v]: a [TypeError] on [null]
    and [undefined], [undefined] for an absent key.  This is the value
    JavaScript gives for a key that [v] owns and for an absent key that
    names no inherited property ([selected] is none); what is stated below
    about a lookup is stated for such keys. *)
Definition get (v : JValue) (k : string) : Result JValue :=
  if nullish v then TypeError else Ok (lookup_field k (own_fields v)).

(** How a key that may be [undefined] reads as the argument of
    [String.prototype.concat]. *)
Definition key_to_string (k : option string) : string :=
  match k with
  | Some s => s
  | None => "undefined"%string
  end.

Fixpoint set_field (k : string) (x : JValue)
         (fields : list (string * JValue)) : list (string * JValue) :=
  match fields with
  | [] => [(k, x)]
  | (k', v) :: rest =>
      if String.eqb k k' then (k', x) :: rest
      else (k', v) :: set_field k x rest
  end.

(** [v.k = x] for a key [k] that is no index.  On an object the property
    is overwritten in place or added after the others; on anything else the
    assignment throws (the class is module code, which is strict). *)
Definition set (v : JValue) (k : string) (x : JValue) : Result JValue :=
  match v with
  | JObj fields => Ok (JObj (set_field k x fields))
  | _ => TypeError
  end.

(** [_.isUndefined]. *)
Definition isUndefined (v : JValue) : bool :=
  match v with
  | JUndefined => true
  | _ => false
  end.

(** [_.isEmpty] on a value: no own enumerable property (no element, no
    character); scalars other than strings are empty. *)
Definition isEmptyValue (v : JValue) : bool :=
  match own_fields v with
  | [] => true
  | _ :: _ => false
  end.

(** [v !== false]. *)
Definition is_not_false (v : JValue) : bool :=
  match v with
  | JBool false => false
  | _ => true
  end.

(** [Math.floor(a / b)] and [Math.ceil(a / b)] on integers, for [b <> 0].
    (JavaScript yields an infinity or NaN for [b = 0], which [Z] does not
    have; nothing below is stated for that case.) *)
Definition floor_div (a b : Z) : Z := a / b.
Definition ceil_div (a b : Z) : Z := - ((- a) / b).

End JS.

Import JS.

Notation "x <- e ;; k" := (JS.bind e (fun x => k))
  (at level 61, e at next level, right associativity).

(** ** GridSort: the two sort directions *)

Module GridSort.
(** Modelled from the spec: the GridSort class is not part of the sources
    at hand; its two constants are the directions ASC and DESC, which
    [setSort] documents as the strings 'asc' and 'desc'. *)
Definition TYPE_ASC : string := "asc".
Definition TYPE_DESC : string := "desc".
End GridSort.

(** ** GridColumn and GridOptions *)

(** The fields of a column that the class reads or writes. *)
Record GridColumn : Type := mkGridColumn {
  name : string;
  heading : string
}.

(** A page size is a number, or [false] when paging is disabled. *)
Inductive PageSize : Type :=
| PageSizeFalse
| PageSizeNum (n : Z).

(** The options the class consults.  [url = None] is an undefined url (a
    local source); an undefined column list is the empty one. *)
Record GridOptions : Type := mkGridOptions {
  opt_columns : list GridColumn;
  opt_url : option string;
  opt_paging : bool;
  opt_pageButtonCount : Z
}.

(** ** GridDataProvider *)

Module GridDataProvider.

(** Modelled from the spec: the GridDataProvider class is not part of the
    sources at hand.  Its state is the page and page size the grid
    writes, the filter set, the sort state and the last result (records
    and total count). *)
Record t : Type := mk {
  pageSize : PageSize;
  page : Z;
  filters : list (string * string);
  sortColumn : option string;
  sortType : string;
  records : list JValue;
  totalCount : Z
}.

Definition with_pageSize (s : PageSize) (dp : t) : t :=
  mk s (page dp) (filters dp) (sortColumn dp) (sortType dp)
     (records dp) (totalCount dp).

Definition with_page (p : Z) (dp : t) : t :=
  mk (pageSize dp) p (filters dp) (sortColumn dp) (sortType dp)
     (records dp) (totalCount dp).

(** Modelled from the spec: getData returns the last-fetched page's
    records, unmodified. *)
Definition getData (dp : t) : list JValue := records dp.

(** Modelled from the spec: getTotalCount returns the last-known total
    count. *)
Definition getTotalCount (dp : t) : Z := totalCount dp.

(** Modelled from the spec: getSortColumn and getSortType read the
    current sort state. *)
Definition getSortColumn (dp : t) : option string := sortColumn dp.
Definition getSortType (dp : t) : string := sortType dp.

Fixpoint put_filter (columnName value : string)
         (fs : list (string * string)) : list (string * string) :=
  match fs with
  | [] => [(columnName, value)]
  | (c, v) :: rest =>
      if String.eqb columnName c then (c, value) :: rest
      else (c, v) :: put_filter columnName value rest
  end.

(** Modelled from the spec: setFilter stores or overwrites the keyword of
    one column and fetches nothing. *)
Definition setFilter (columnName value : string) (dp : t) : t :=
  mk (pageSize dp) (page dp) (put_filter columnName value (filters dp))
     (sortColumn dp) (sortType dp) (records dp) (totalCount dp).

(** Modelled from the spec: setSort sets the sort column; an omitted
    direction keeps the one in place. *)
Definition setSort (column : string) (direction : option string) (dp : t) : t :=
  mk (pageSize dp) (page dp) (filters dp) (Some column)
     (match direction with Some d => d | None => sortType dp end)
     (records dp) (totalCount dp).

(** What the transport answers to the one request of a fetch. *)
Inductive Outcome : Type :=
| Success (recs : list JValue) (total : Z)
| Failure (err : JValue).

(** Modelled from the spec: on success fetch stores the returned records
    and total count, on failure it leaves the prior state untouched. *)
Definition fetch (o : Outcome) (dp : t) : t :=
  match o with
  | Success recs total =>
      mk (pageSize dp) (page dp) (filters dp) (sortColumn dp) (sortType dp)
         recs total
  | Failure _ => dp
  end.

End GridDataProvider.

(** ** Grid *)

Module Grid.

(** What a call leaves outside the component: the requests it issues
    through the provider and the values it writes to the console. *)
Inductive Event : Type :=
| EvFetch (page : Z)
| EvConsoleLog (err : JValue).

(** The fields of the class.  [data = None] is the undefined [data] of a
    grid that has not been refreshed yet. *)
Record t : Type := mk {
  options : GridOptions;
  columns : list GridColumn;
  dataProvider : GridDataProvider.t;
  data : option (list JValue);
  pageIndex : Z;
  pages : list Z
}.

Definition with_columns (cs : list GridColumn) (g : t) : t :=
  mk (options g) cs (dataProvider g) (data g) (pageIndex g) (pages g).

Definition with_dataProvider (dp : GridDataProvider.t) (g : t) : t :=
  mk (options g) (columns g) dp (data g) (pageIndex g) (pages g).

Definition with_data (d : option (list JValue)) (g : t) : t :=
  mk (options g) (columns g) (dataProvider g) d (pageIndex g) (pages g).

Definition with_pageIndex (i : Z) (g : t) : t :=
  mk (options g) (columns g) (dataProvider g) (data g) i (pages g).

Definition with_pages (ps : list Z) (g : t) : t :=
  mk (options g) (columns g) (dataProvider g) (data g) (pageIndex g) ps.

(** [_.isEmpty] on an array. *)
Definition isEmpty {A : Type} (l : list A) : bool :=
  match l with
  | [] => true
  | _ :: _ => false
  end.

(** *** Queries

    [getData] and [getSelectedItems] are given with the grid they leave
    behind next to the value they answer. *)

Definition getData (g : t) : t * option (list JValue) := (g, data g).

(** The loop of [getSelectedItems]: [selectedItems] grows by [push]. *)
Fixpoint selected_loop (rows selectedItems : list JValue) : Result (list JValue) :=
  match rows with
  | [] => Ok selectedItems
  | row :: rest =>
      flag <- get row "selected" ;;
      selected_loop rest
        (if truthy flag then selectedItems ++ [row] else selectedItems)
  end.

Definition getSelectedItems (g : t) : t * Result (list JValue) :=
  (g, match data g with
      | None => TypeError
      | Some rows => selected_loop rows []
      end).

Definition getPageIndex (g : t) : Z := pageIndex g.

Definition getPageSize (g : t) : PageSize :=
  GridDataProvider.pageSize (dataProvider g).

Definition getTotalPages (g : t) : Z :=
  match GridDataProvider.pageSize (dataProvider g) with
  | PageSizeFalse => 1
  | PageSizeNum pageSize =>
      ceil_div (GridDataProvider.getTotalCount (dataProvider g)) pageSize
  end.

(** *** Setters *)

Definition setPageIndex (pageIndex : Z) (g : t) : t :=
  with_pageIndex pageIndex g.

Definition setPageSize (pageSize : Z) (g : t) : t :=
  with_pageIndex 1
    (with_dataProvider
       (GridDataProvider.with_pageSize (PageSizeNum pageSize) (dataProvider g)) g).

Definition setFilter (columnName value : string) (g : t) : t :=
  with_pageIndex 1
    (with_dataProvider
       (GridDataProvider.setFilter columnName value (dataProvider g)) g).

Definition setSort (sortColumn : string) (sortType : option string) (g : t) : t :=
  with_dataProvider
    (GridDataProvider.setSort sortColumn sortType (dataProvider g)) g.

(** *** Sorting *)

(** [name !== sortColumn], where the sort column may be undefined. *)
Definition differs (name : string) (sortColumn : option string) : bool :=
  match sortColumn with
  | Some c => negb (String.eqb name c)
  | None => true
  end.

Definition getSortType (column : GridColumn) (g : t) : string :=
  if differs (name column) (GridDataProvider.getSortColumn (dataProvider g))
  then GridDataProvider.getSortType (dataProvider g)
  else if String.eqb (GridDataProvider.getSortType (dataProvider g))
                     GridSort.TYPE_ASC
       then GridSort.TYPE_DESC
       else GridSort.TYPE_ASC.

(** *** Pagination *)

(** The loop [for (i = startIndex; i <= endIndex; i++) pages.push(i)];
    [fuel] bounds the number of iterations. *)
Fixpoint push_pages (fuel : nat) (i endIndex : Z) (pages : list Z) : list Z :=
  match fuel with
  | O => pages
  | S fuel' =>
      if i <=? endIndex
      then push_pages fuel' (i + 1) endIndex (pages ++ [i])
      else pages
  end.

Definition paginate (g : t) : t :=
  let pageButtonCount :=
    Z.min (opt_pageButtonCount (options g)) (getTotalPages g) in
  let offsetLeft := floor_div pageButtonCount 2 in
  let offsetRight := ceil_div pageButtonCount 2 - 1 in
  let startIndex := pageIndex g - offsetLeft in
  let endIndex := pageIndex g + offsetRight in
  let '(startIndex, endIndex) :=
    if startIndex <? 1 then (1, pageButtonCount)
    else if endIndex >? getTotalPages g
         then (getTotalPages g - pageButtonCount + 1, getTotalPages g)
         else (startIndex, endIndex) in
  with_pages
    (push_pages (Z.to_nat (endIndex - startIndex + 1)) startIndex endIndex [])
    g.

(** *** Columns *)

Definition initColumns (g : t) : t :=
  if negb (isEmpty (opt_columns (options g)))
  then with_columns (columns g ++ opt_columns (options g)) g
  else g.

(** The result of the recursive call only feeds a [concat] whose value is
    dropped: the method answers the first key of [object]. *)
Fixpoint getNestedKey (object : JValue) : Result (option string) :=
  match object with
  | JUndefined | JNull => TypeError
  | JBool _ | JNum _ => Ok None
  | JStr s => Ok (hd_error (keys (JStr s)))
  | JObj [] => Ok None
  | JObj ((firstKey, firstKeyValue) :: _) =>
      if isObject firstKeyValue then
        nested <- getNestedKey firstKeyValue ;;
        let _ := (firstKey ++ "." ++ key_to_string nested)%string in
        Ok (Some firstKey)
      else Ok (Some firstKey)
  end.

Definition getColumnName (key : string) (row : JValue) : Result string :=
  value <- get row key ;;
  if isObject value then
    nested <- getNestedKey value ;;
    Ok (key ++ "." ++ key_to_string nested)%string
  else Ok key.

(** The loop [for (let key in firstRow)] of [setColumnsFromData]. *)
Fixpoint push_columns (ks : list string) (firstRow : JValue)
         (columns : list GridColumn) : Result (list GridColumn) :=
  match ks with
  | [] => Ok columns
  | key :: rest =>
      n <- getColumnName key firstRow ;;
      push_columns rest firstRow (columns ++ [mkGridColumn n key])
  end.

Definition setColumnsFromData (data : list JValue) (g : t) : Result t :=
  let firstRow := nth 0 data JUndefined in
  cs <- push_columns (keys firstRow) firstRow (columns g) ;;
  Ok (with_columns cs g).

(** *** Rendering *)

Definition refresh (g : t) : Result t :=
  let rows := GridDataProvider.getData (dataProvider g) in
  let g := with_data (Some rows) g in
  g <- (if negb (isEmpty rows) && isEmpty (columns g)
        then setColumnsFromData rows g
        else Ok g) ;;
  Ok (if opt_paging (options g) then paginate g else g).

(** [o] is the answer of the transport to the request of a remote source;
    the subscription runs its success or its error branch on it. *)
Definition render (o : GridDataProvider.Outcome) (g : t) : Result (t * list Event) :=
  let g :=
    with_dataProvider (GridDataProvider.with_page (pageIndex g) (dataProvider g)) g in
  match opt_url (options g) with
  | None =>
      g <- refresh g ;;
      Ok (g, [])
  | Some _ =>
      let request := EvFetch (GridDataProvider.page (dataProvider g)) in
      let g := with_dataProvider (GridDataProvider.fetch o (dataProvider g)) g in
      match o with
      | GridDataProvider.Success _ _ =>
          g <- refresh g ;;
          Ok (g, [request])
      | GridDataProvider.Failure err =>
          Ok (g, [request; EvConsoleLog err])
      end
  end.

(** *** Selection

    The rows are objects the grid shares with whoever handed them over;
    the handlers are given by what they make of the rows the grid shows. *)

(** The loop of [onSelectAllCheckboxClick]. *)
Fixpoint select_loop (selected : bool) (rows : list JValue) : Result (list JValue) :=
  match rows with
  | [] => Ok []
  | row :: rest =>
      row <- set row "selected" (JBool selected) ;;
      rest <- select_loop selected rest ;;
      Ok (row :: rest)
  end.

Definition onSelectAllCheckboxClick (selected : bool) (g : t) : Result t :=
  match data g with
  | None => TypeError
  | Some rows =>
      rows <- select_loop selected rows ;;
      Ok (with_data (Some rows) g)
  end.

(** Answers the item as the handler leaves it. *)
Definition onSelectItemCheckboxClick (item : JValue) : Result JValue :=
  flag <- get item "selected" ;;
  item <- (if isUndefined flag then set item "selected" (JBool false)
           else Ok item) ;;
  flag <- get item "selected" ;;
  set item "selected" (JBool (negb (truthy flag))).

(** *** More on sorting and paging *)

Definition isSortedBy (column : GridColumn) (sortType : option string) (g : t) : bool :=
  let isOrderedByField :=
    negb (differs (name column)
                  (GridDataProvider.getSortColumn (dataProvider g))) in
  match sortType with
  | None => isOrderedByField
  | Some sortType =>
      isOrderedByField &&
      String.eqb (GridDataProvider.getSortType (dataProvider g)) sortType
  end.

(** [pageSizeOptions] is the option of that name, which the options record
    above does not carry. *)
Definition isPageSizeOptionsEnabled (pageSizeOptions : JValue) (g : t) : bool :=
  opt_paging (options g) &&
  (negb (isEmptyValue pageSizeOptions) || is_not_false pageSizeOptions).

End Grid.

(** ** The lifetime of a grid

    The presentation layer drives a mounted grid through its setters and
    asks it to render; a remote render comes back with the answer of the
    transport. *)

Inductive Intent : Type :=
| SetPageIndex (pageIndex : Z)
| SetPageSize (pageSize : Z)
| SetFilter (columnName value : string)
| SetSort (sortColumn : string) (sortType : option string)
| Render (o : GridDataProvider.Outcome).

Definition step (i : Intent) (g : Grid.t) : Result Grid.t :=
  match i with
  | SetPageIndex pageIndex => Ok (Grid.setPageIndex pageIndex g)
  | SetPageSize pageSize => Ok (Grid.setPageSize pageSize g)
  | SetFilter columnName value => Ok (Grid.setFilter columnName value g)
  | SetSort sortColumn sortType => Ok (Grid.setSort sortColumn sortType g)
  | Render o => r <- Grid.render o g ;; Ok (fst r)
  end.

Fixpoint run (intents : list Intent) (g : Grid.t) : Result Grid.t :=
  match intents with
  | [] => Ok g
  | i :: rest => g' <- step i g ;; run rest g'
  end.

(** ** Vocabulary of the specification *)

(** [n] consecutive integers from [first] on. *)
Definition consecutive (first : Z) (n : nat) : list Z :=
  map (fun k => first + Z.of_nat k) (seq 0 n).

(** [q] is the ceiling of [a / b] for a positive [b]: the least integer
    with [a <= q * b]. *)
Definition is_ceiling (a b q : Z) : Prop :=
  (q - 1) * b < a <= q * b.

(** The row carries a truthy [selected] flag. *)
Definition selected (row : JValue) : bool :=
  truthy (lookup_field "selected" (own_fields row)).

(** The dotted path the documentation of [getNestedKey] describes: descend
    through the first key of each level down to the first scalar. *)
Fixpoint first_key_path (object : JValue) : string :=
  match object with
  | JObj ((firstKey, firstKeyValue) :: _) =>
      if isObject firstKeyValue
      then (firstKey ++ "." ++ first_key_path firstKeyValue)%string
      else firstKey
  | _ => "undefined"%string
  end.

(** The name [getColumnName] gives the column of a key: the key itself
    over a scalar, the key and the first key below it over an object. *)
Definition inferred_name (key : string) (row : JValue) : string :=
  match lookup_field key (own_fields row) with
  | JObj [] => (key ++ ".undefined")%string
  | JObj ((firstKey, _) :: _) => (key ++ "." ++ firstKey)%string
  | _ => key
  end.

(** One column per key of the row, in the order of its keys. *)
Definition inferred_columns (row : JValue) : list GridColumn :=
  map (fun key => mkGridColumn (inferred_name key row) key) (keys row).

(** [row'] is [row] with its [selected] flag set to [flag]: an object
    that answers [flag] for [selected] and what [row] answers for every
    other key. *)
Definition marked (flag : bool) (row row' : JValue) : Prop :=
  isObject row' = true /\
  lookup_field "selected" (own_fields row') = JBool flag /\
  forall k : string,
    k <> "selected"%string ->
    lookup_field k (own_fields row') = lookup_field k (own_fields row).

(** ** Example grids *)

Module Examples.

Definition opts (url : option string) (pageButtonCount : Z) : GridOptions :=
  mkGridOptions [] url true pageButtonCount.

Definition provider (pageSize : PageSize) (totalCount : Z)
           (records : list JValue) : GridDataProvider.t :=
  GridDataProvider.mk pageSize 1 [] (Some "name"%string) GridSort.TYPE_ASC
                      records totalCount.

(** A local grid on page [pageIndex] over [totalCount] records. *)
Definition grid (pageIndex pageButtonCount : Z) (pageSize : PageSize)
           (totalCount : Z) : Grid.t :=
  Grid.mk (opts None pageButtonCount) [] (provider pageSize totalCount [])
          None pageIndex [].

(** The record of the documentation of [getNestedKey]. *)
Definition china : JValue :=
  JObj [("country"%string,
         JObj [("name"%string,
                JObj [("officialName"%string, JStr "People's Republic of China");
                      ("name"%string, JStr "China")]);
               ("id"%string, JNum 6)])].

Definition alice : JValue :=
  JObj [("name"%string, JStr "alice"); ("selected"%string, JBool true)].
Definition bob : JValue :=
  JObj [("name"%string, JStr "bob")].
Definition carol : JValue :=
  JObj [("name"%string, JStr "carol"); ("selected"%string, JBool false)].
Definition dave : JValue :=
  JObj [("selected"%string, JNum 1); ("name"%string, JStr "dave")].

(** A remote grid showing a page of four users. *)
Definition remote : Grid.t :=
  Grid.mk (opts (Some "/users"%string) 5)
          [mkGridColumn "name" "name"]
          (provider (PageSizeNum 4) 12 [alice; bob; carol; dave])
          (Some [alice; bob; carol; dave]) 2 [1; 2; 3].

End Examples.

(** ** Arithmetic of the page count *)

Section Ceiling.

Variables a b : Z.
Hypothesis b_pos : 0 < b.

Lemma ceil_div_is_ceiling : is_ceiling a b (ceil_div a b).
Proof.
  unfold is_ceiling, ceil_div.
  pose proof (Z.div_mod (- a) b ltac:(lia)) as Hdm.
  pose proof (Z.mod_pos_bound (- a) b b_pos) as Hr.
  nia.
Qed.

Lemma is_ceiling_unique (q q' : Z) :
  is_ceiling a b q -> is_ceiling a b q' -> q = q'.
Proof. unfold is_ceiling. intros H H'. nia. Qed.

Lemma ceil_div_positive : 0 < a -> 1 <= ceil_div a b.
Proof.
  intros Ha. pose proof ceil_div_is_ceiling as [_ Hup].
  nia.
Qed.

Lemma ceil_div_zero : a = 0 -> ceil_div a b = 0.
Proof.
  intros ->. unfold ceil_div. reflexivity.
Qed.

End Ceiling.

Lemma halves_add_up (n : Z) : floor_div n 2 + (ceil_div n 2 - 1) + 1 = n.
Proof.
  unfold floor_div, ceil_div.
  pose proof (Z.div_mod n 2 ltac:(lia)).
  pose proof (Z.mod_pos_bound n 2 ltac:(lia)).
  pose proof (Z.div_mod (- n) 2 ltac:(lia)).
  pose proof (Z.mod_pos_bound (- n) 2 ltac:(lia)).
  lia.
Qed.

Lemma halves_bounds (n : Z) :
  (1 <= n -> 0 <= floor_div n 2 /\ 0 <= ceil_div n 2 - 1) /\
  (n <= 0 -> floor_div n 2 <= 0 /\ ceil_div n 2 - 1 <= -1).
Proof.
  unfold floor_div, ceil_div.
  pose proof (Z.div_mod n 2 ltac:(lia)).
  pose proof (Z.mod_pos_bound n 2 ltac:(lia)).
  pose proof (Z.div_mod (- n) 2 ltac:(lia)).
  pose proof (Z.mod_pos_bound (- n) 2 ltac:(lia)).
  lia.
Qed.

Lemma halves_exact (n : Z) :
  2 * floor_div n 2 <= n <= 2 * floor_div n 2 + 1.
Proof.
  unfold floor_div.
  pose proof (Z.div_mod n 2 ltac:(lia)).
  pose proof (Z.mod_pos_bound n 2 ltac:(lia)).
  lia.
Qed.

(** ** Consecutive integers and the page loop *)

Lemma consecutive_S (first : Z) (n : nat) :
  consecutive first (S n) = first :: consecutive (first + 1) n.
Proof.
  unfold consecutive. simpl. f_equal; [lia |].
  rewrite <- seq_shift, map_map.
  apply map_ext. intros k. lia.
Qed.

Lemma consecutive_length (first : Z) (n : nat) :
  List.length (consecutive first n) = n.
Proof. unfold consecutive. now rewrite length_map, length_seq. Qed.

Lemma consecutive_In (first x : Z) (n : nat) :
  In x (consecutive first n) <-> first <= x < first + Z.of_nat n.
Proof.
  revert first. induction n as [| n IH]; intros first.
  - simpl. lia.
  - rewrite consecutive_S. simpl. rewrite IH. lia.
Qed.

Lemma consecutive_Forall (P : Z -> Prop) (first : Z) (n : nat) :
  (forall x, first <= x < first + Z.of_nat n -> P x) ->
  Forall P (consecutive first n).
Proof.
  intros H. apply Forall_forall. intros x Hx. apply H.
  now apply consecutive_In.
Qed.

(** With the fuel [paginate] gives it, the loop runs to its exit test: it
    pushes every integer from [i] to [endIndex]. *)
Lemma push_pages_run (fuel : nat) :
  forall (i endIndex : Z) (pages : list Z),
    (Z.to_nat (endIndex - i + 1) <= fuel)%nat ->
    Grid.push_pages fuel i endIndex pages =
    pages ++ consecutive i (Z.to_nat (endIndex - i + 1)).
Proof.
  induction fuel as [| fuel IH]; intros i endIndex pages Hfuel.
  - replace (Z.to_nat (endIndex - i + 1)) with O by lia.
    simpl. now rewrite app_nil_r.
  - simpl. destruct (Z.leb_spec i endIndex) as [Hle | Hgt].
    + rewrite IH by lia.
      replace (Z.to_nat (endIndex - i + 1))
        with (S (Z.to_nat (endIndex - (i + 1) + 1))) by lia.
      rewrite consecutive_S, <- app_assoc. reflexivity.
    + replace (Z.to_nat (endIndex - i + 1)) with O by lia.
      simpl. now rewrite app_nil_r.
Qed.

(** The three cases of [paginate], with the loop replaced by its result. *)
Ltac paginate_cases :=
  unfold Grid.paginate; cbv zeta;
  match goal with
  | |- context [?a <? 1] => destruct (Z.ltb_spec a 1)
  end;
  [ | match goal with
      | |- context [?a >? ?b] =>
          rewrite (Z.gtb_ltb a b); destruct (Z.ltb_spec b a)
      end ];
  cbn [Grid.pages Grid.with_pages Grid.pageIndex Grid.options];
  rewrite push_pages_run by lia; cbn [app].

(** The window is a run of consecutive integers, whatever the state. *)
Lemma paginate_consecutive (g : Grid.t) :
  exists first n, Grid.pages (Grid.paginate g) = consecutive first n.
Proof. paginate_cases; eauto. Qed.

(** [paginate] touches nothing but the page list. *)
Lemma paginate_frame (g : Grid.t) :
  Grid.paginate g = Grid.with_pages (Grid.pages (Grid.paginate g)) g.
Proof.
  unfold Grid.paginate; cbv zeta.
  repeat match goal with
         | |- context [if ?c then _ else _] => destruct c
         end; reflexivity.
Qed.

(** ** Column inference *)

(** Reading the first key of an object back gives its first value, so the
    pattern match of [getNestedKey] is the lookup [object[firstKey]]. *)
Lemma get_first_key (firstKey : string) (firstKeyValue : JValue)
      (rest : list (string * JValue)) :
  hd_error (keys (JObj ((firstKey, firstKeyValue) :: rest))) = Some firstKey /\
  get (JObj ((firstKey, firstKeyValue) :: rest)) firstKey = Ok firstKeyValue.
Proof.
  split; [reflexivity |].
  unfold get. simpl. now rewrite String.eqb_refl.
Qed.

(** On every object [getNestedKey] returns, and what it returns is the
    first key of the object itself, however deep the object is. *)
Fixpoint getNestedKey_first_key (object : JValue) :
  isObject object = true ->
  Grid.getNestedKey object = Ok (hd_error (keys object)).
Proof.
  destruct object as [| | b | n | s | fields]; try discriminate.
  intros _. destruct fields as [| [firstKey firstKeyValue] rest].
  - reflexivity.
  - simpl. destruct (isObject firstKeyValue) eqn:Hobj.
    + rewrite (getNestedKey_first_key firstKeyValue Hobj). reflexivity.
    + reflexivity.
Qed.

Lemma getColumnName_closed (key : string) (row : JValue) :
  nullish row = false ->
  Grid.getColumnName key row =
  Ok (let value := lookup_field key (own_fields row) in
      if isObject value
      then (key ++ "." ++ key_to_string (hd_error (keys value)))%string
      else key).
Proof.
  intros Hrow. unfold Grid.getColumnName, get. rewrite Hrow. simpl.
  destruct (isObject (lookup_field key (own_fields row))) eqn:Hobj.
  - now rewrite getNestedKey_first_key.
  - reflexivity.
Qed.

Lemma keys_nullish (row : JValue) : nullish row = true -> keys row = [].
Proof. destruct row; try discriminate; reflexivity. Qed.

(** The loop over the keys of a row never throws: it appends one column
    per key, headed by that key. *)
Lemma push_columns_total (firstRow : JValue) (ks : list string) :
  nullish firstRow = false ->
  forall columns,
  exists added,
    Grid.push_columns ks firstRow columns = Ok (columns ++ added) /\
    map heading added = ks.
Proof.
  intros Hrow. induction ks as [| key rest IH]; intros columns.
  - exists []. simpl. now rewrite app_nil_r.
  - simpl. rewrite getColumnName_closed by assumption. cbn [bind].
    edestruct IH as [added [Heq Hmap]]. rewrite Heq.
    eexists (_ :: added). rewrite <- app_assoc. simpl.
    split; [reflexivity | now rewrite Hmap].
Qed.

Lemma setColumnsFromData_total (data : list JValue) (g : Grid.t) :
  exists added,
    Grid.setColumnsFromData data g =
    Ok (Grid.with_columns (Grid.columns g ++ added) g) /\
    map heading added = keys (nth 0 data JUndefined).
Proof.
  unfold Grid.setColumnsFromData. cbv zeta.
  destruct (nullish (nth 0 data JUndefined)) eqn:Hrow.
  - exists []. rewrite (keys_nullish _ Hrow). simpl.
    now rewrite app_nil_r.
  - destruct (push_columns_total _ (keys (nth 0 data JUndefined)) Hrow
                                 (Grid.columns g)) as [added [Heq Hmap]].
    exists added. now rewrite Heq.
Qed.

(** ** Refresh and render never throw *)

(** What a refresh or a render leaves in place: everything but the rows,
    the page list and, while there are none, the columns. *)
Definition settled (g g' : Grid.t) : Prop :=
  Grid.options g' = Grid.options g /\
  Grid.pageIndex g' = Grid.pageIndex g /\
  (Grid.columns g <> [] -> Grid.columns g' = Grid.columns g).

Lemma paging_settled (g0 g : Grid.t) :
  settled g0 g ->
  settled g0 (if opt_paging (Grid.options g) then Grid.paginate g else g).
Proof.
  intros H. destruct (opt_paging (Grid.options g)); [| exact H].
  rewrite paginate_frame. exact H.
Qed.

Lemma refresh_total (g : Grid.t) :
  exists g', Grid.refresh g = Ok g' /\ settled g g' /\
    Grid.data g' = Some (GridDataProvider.getData (Grid.dataProvider g)) /\
    (Grid.columns g' <> Grid.columns g ->
     Grid.columns g = [] /\
     GridDataProvider.getData (Grid.dataProvider g) <> []) /\
    (Grid.columns g = [] ->
     GridDataProvider.getData (Grid.dataProvider g) <> [] ->
     map heading (Grid.columns g') =
     keys (nth 0 (GridDataProvider.getData (Grid.dataProvider g)) JUndefined)).
Proof.
  unfold Grid.refresh. cbv zeta.
  set (rows := GridDataProvider.getData (Grid.dataProvider g)).
  set (g1 := Grid.with_data (Some rows) g).
  destruct (negb (Grid.isEmpty rows) && Grid.isEmpty (Grid.columns g1))
    eqn:Hguard.
  - apply andb_true_iff in Hguard as [Hrows Hcols].
    assert (Hempty : Grid.columns g = []).
    { simpl in Hcols. destruct (Grid.columns g); [reflexivity | discriminate]. }
    assert (Hdata : rows <> []).
    { intros Hnil. rewrite Hnil in Hrows. discriminate. }
    destruct (setColumnsFromData_total rows g1) as [added [Heq Hmap]].
    rewrite Heq. cbn [bind]. eexists. split; [reflexivity |].
    split; [| split; [| split]].
    + apply paging_settled. repeat split. intros Hne. contradiction.
    + destruct (opt_paging _); [rewrite paginate_frame |]; reflexivity.
    + intros _. split; assumption.
    + intros _ _. rewrite <- Hmap.
      destruct (opt_paging _); [rewrite paginate_frame |];
        simpl; rewrite Hempty; reflexivity.
  - cbn [bind]. eexists. split; [reflexivity |].
    split; [| split; [| split]].
    + apply paging_settled. repeat split.
    + destruct (opt_paging _); [rewrite paginate_frame |]; reflexivity.
    + intros Hne. exfalso. apply Hne.
      destruct (opt_paging _); [rewrite paginate_frame |]; reflexivity.
    + intros Hempty Hdata. exfalso.
      simpl in Hguard. rewrite Hempty in Hguard.
      destruct rows; [congruence | discriminate].
Qed.

Lemma settled_trans (g1 g2 g3 : Grid.t) :
  settled g1 g2 -> settled g2 g3 -> settled g1 g3.
Proof.
  unfold settled. intros (Ho & Hp & Hc) (Ho' & Hp' & Hc').
  repeat split; try congruence.
  intros Hne. rewrite Hc', Hc; auto. rewrite Hc; auto.
Qed.

Lemma render_total (o : GridDataProvider.Outcome) (g : Grid.t) :
  exists g' events, Grid.render o g = Ok (g', events) /\ settled g g'.
Proof.
  unfold Grid.render. cbv zeta.
  cbn [Grid.options Grid.with_dataProvider].
  destruct (opt_url (Grid.options g)) as [url |];
    [destruct o as [recs total | err] |];
    try match goal with
        | |- context [Grid.refresh ?x] =>
            destruct (refresh_total x) as [g' [Heq [Hs _]]];
            rewrite Heq; cbn [bind]; do 2 eexists; split; [reflexivity |];
            eapply settled_trans; [| exact Hs]; repeat split
        end.
  do 2 eexists. split; [reflexivity |]. repeat split.
Qed.

(** ** A run of intents *)

Lemma step_total (i : Intent) (g : Grid.t) :
  exists g', step i g = Ok g' /\
    (Grid.columns g <> [] -> Grid.columns g' = Grid.columns g).
Proof.
  destruct i as [pageIndex | pageSize | columnName value | sortColumn sortType | o];
    simpl; try (eexists; split; [reflexivity | reflexivity]).
  destruct (render_total o g) as [g' [events [Heq (_ & _ & Hcols)]]].
  rewrite Heq. simpl. eauto.
Qed.

Lemma run_total (intents : list Intent) :
  forall g : Grid.t,
  exists g', run intents g = Ok g' /\
    (Grid.columns g <> [] -> Grid.columns g' = Grid.columns g).
Proof.
  induction intents as [| i rest IH]; intros g; simpl.
  - eauto.
  - destruct (step_total i g) as [g1 [Heq Hcols]]. rewrite Heq. simpl.
    destruct (IH g1) as [g' [Hrun Hcols']].
    exists g'. split; [exact Hrun |].
    intros Hne. rewrite Hcols', Hcols; auto. rewrite Hcols; auto.
Qed.

(** ** The selection loop *)

Lemma selected_loop_filter (rows : list JValue) :
  Forall (fun row => nullish row = false) rows ->
  forall selectedItems,
    Grid.selected_loop rows selectedItems =
    Ok (selectedItems ++ filter selected rows).
Proof.
  induction 1 as [| row rest Hrow _ IH]; intros selectedItems; simpl.
  - now rewrite app_nil_r.
  - unfold get. rewrite Hrow. cbn [bind]. rewrite IH.
    unfold selected at 2.
    destruct (truthy (lookup_field "selected" (own_fields row)));
      [rewrite <- app_assoc |]; reflexivity.
Qed.

(** A row that is [null] or [undefined] makes the loop throw. *)
Lemma selected_loop_throws (rows : list JValue) :
  Exists (fun row => nullish row = true) rows ->
  forall selectedItems, Grid.selected_loop rows selectedItems = TypeError.
Proof.
  induction rows as [| row rest IH]; intros Hex selectedItems.
  - inversion Hex.
  - simpl. unfold get. destruct (nullish row) eqn:Hrow; [reflexivity |].
    cbn [bind]. apply IH. inversion Hex; subst; [congruence | assumption].
Qed.

(** ** Total pages *)

(** C1, as the code has it: with paging disabled [getTotalPages] returns 1;
    for a page size above 0 it returns the ceiling of the total count over
    the page size, which is at least 1 when the total count is above 0 and
    is 0 when the total count is 0. *)
Theorem getTotalPages_ceiling (g : Grid.t) :
  (Grid.getPageSize g = PageSizeFalse -> Grid.getTotalPages g = 1) /\
  (forall pageSize : Z,
      Grid.getPageSize g = PageSizeNum pageSize ->
      0 < pageSize ->
      is_ceiling (GridDataProvider.getTotalCount (Grid.dataProvider g))
                 pageSize (Grid.getTotalPages g) /\
      (0 < GridDataProvider.getTotalCount (Grid.dataProvider g) ->
       1 <= Grid.getTotalPages g) /\
      (GridDataProvider.getTotalCount (Grid.dataProvider g) = 0 ->
       Grid.getTotalPages g = 0)).
Proof.
  unfold Grid.getPageSize, Grid.getTotalPages. split.
  - intros ->. reflexivity.
  - intros pageSize -> Hpos. repeat split.
    + apply ceil_div_is_ceiling; assumption.
    + apply ceil_div_is_ceiling; assumption.
    + apply ceil_div_positive; assumption.
    + apply ceil_div_zero.
Qed.

Lemma getTotalPages_ceiling_witness :
  Grid.getTotalPages (Examples.grid 1 5 PageSizeFalse 25) = 1 /\
  (0 < 10 /\ is_ceiling 25 10 (Grid.getTotalPages (Examples.grid 1 5 (PageSizeNum 10) 25))).
Proof.
  split.
  - apply (proj1 (getTotalPages_ceiling (Examples.grid 1 5 PageSizeFalse 25))).
    reflexivity.
  - split; [lia |].
    apply (proj2 (getTotalPages_ceiling (Examples.grid 1 5 (PageSizeNum 10) 25)) 10);
      [reflexivity | lia].
Defined.

(** C1, as stated, fails on an empty source: no record and a page size of
    10 give 0 pages, not at least 1. *)
Lemma getTotalPages_empty_source :
  0 <= GridDataProvider.getTotalCount
         (Grid.dataProvider (Examples.grid 1 5 (PageSizeNum 10) 0)) /\
  Grid.getPageSize (Examples.grid 1 5 (PageSizeNum 10) 0) = PageSizeNum 10 /\
  ~ 1 <= Grid.getTotalPages (Examples.grid 1 5 (PageSizeNum 10) 0).
Proof.
  split; [simpl; lia |]. split; [reflexivity |].
  change (Grid.getTotalPages (Examples.grid 1 5 (PageSizeNum 10) 0)) with 0.
  lia.
Qed.

(** C7: 25 records at 10 per page make 3 pages, and on page 2 of 3 with 5
    page buttons the window is 1, 2, 3. *)
Theorem scenario_25_records (g : Grid.t) :
  (Grid.getPageSize g = PageSizeNum 10 ->
   GridDataProvider.getTotalCount (Grid.dataProvider g) = 25 ->
   Grid.getTotalPages g = 3) /\
  (Grid.getPageIndex g = 2 ->
   Grid.getTotalPages g = 3 ->
   opt_pageButtonCount (Grid.options g) = 5 ->
   Grid.pages (Grid.paginate g) = [1; 2; 3]).
Proof.
  split.
  - unfold Grid.getPageSize, Grid.getTotalPages. intros -> ->. reflexivity.
  - unfold Grid.getPageIndex, Grid.paginate. intros -> -> ->. reflexivity.
Qed.

Lemma scenario_25_records_witness :
  Grid.getTotalPages (Examples.grid 2 5 (PageSizeNum 10) 25) = 3 /\
  Grid.pages (Grid.paginate (Examples.grid 2 5 (PageSizeNum 10) 25)) = [1; 2; 3].
Proof.
  split.
  - apply (proj1 (scenario_25_records (Examples.grid 2 5 (PageSizeNum 10) 25)));
      reflexivity.
  - apply (proj2 (scenario_25_records (Examples.grid 2 5 (PageSizeNum 10) 25)));
      reflexivity.
Defined.

(** ** The page-button window *)

(** C3, as the code has it: on a page within [1, totalPages] and with a
    window size from 1 to totalPages, [paginate] yields exactly windowSize
    consecutive integers, all within [1, totalPages], the current page
    among them; with fewer total pages than the window size it yields the
    pages 1 to totalPages; with a window size of 0 or less it yields no
    page at all. *)
Theorem paginate_window (g : Grid.t) :
  1 <= Grid.pageIndex g <= Grid.getTotalPages g ->
  (1 <= opt_pageButtonCount (Grid.options g) <= Grid.getTotalPages g ->
   exists first : Z,
     Grid.pages (Grid.paginate g) =
       consecutive first (Z.to_nat (opt_pageButtonCount (Grid.options g))) /\
     Z.of_nat (List.length (Grid.pages (Grid.paginate g))) =
       opt_pageButtonCount (Grid.options g) /\
     Forall (fun x => 1 <= x <= Grid.getTotalPages g)
            (Grid.pages (Grid.paginate g)) /\
     In (Grid.pageIndex g) (Grid.pages (Grid.paginate g))) /\
  (Grid.getTotalPages g < opt_pageButtonCount (Grid.options g) ->
   Grid.pages (Grid.paginate g) =
     consecutive 1 (Z.to_nat (Grid.getTotalPages g))) /\
  (opt_pageButtonCount (Grid.options g) <= 0 ->
   Grid.pages (Grid.paginate g) = []).
Proof.
  intros Hpage.
  pose proof (halves_add_up
    (Z.min (opt_pageButtonCount (Grid.options g)) (Grid.getTotalPages g))) as Hsum.
  pose proof (halves_bounds
    (Z.min (opt_pageButtonCount (Grid.options g)) (Grid.getTotalPages g)))
    as [Hpos Hneg].
  split; [| split].
  - intros Hwindow.
    destruct (Hpos ltac:(lia)) as [Hleft Hright].
    assert (Hshape : exists first,
      Grid.pages (Grid.paginate g) =
        consecutive first (Z.to_nat (opt_pageButtonCount (Grid.options g))) /\
      1 <= first /\
      first + opt_pageButtonCount (Grid.options g) - 1 <= Grid.getTotalPages g /\
      first <= Grid.pageIndex g < first + opt_pageButtonCount (Grid.options g)).
    { paginate_cases; eexists; (split; [f_equal; lia | lia]). }
    destruct Hshape as [first (Heq & Hlow & Hhigh & Hin)].
    exists first. rewrite Heq, consecutive_length.
    repeat split; try lia.
    + apply consecutive_Forall. lia.
    + apply consecutive_In. lia.
  - intros Hfew.
    destruct (Hpos ltac:(lia)) as [Hleft Hright].
    paginate_cases; f_equal; lia.
  - intros Hnone.
    destruct (Hneg ltac:(lia)) as [Hleft Hright].
    paginate_cases;
      match goal with
      | |- consecutive _ ?n = [] => replace n with O by lia; reflexivity
      end.
Qed.

Lemma paginate_window_witness :
  (1 <= Grid.pageIndex (Examples.grid 4 3 (PageSizeNum 10) 45)
     <= Grid.getTotalPages (Examples.grid 4 3 (PageSizeNum 10) 45)) /\
  (1 <= opt_pageButtonCount (Grid.options (Examples.grid 4 3 (PageSizeNum 10) 45))
     <= Grid.getTotalPages (Examples.grid 4 3 (PageSizeNum 10) 45)) /\
  exists first : Z,
    Grid.pages (Grid.paginate (Examples.grid 4 3 (PageSizeNum 10) 45)) =
      consecutive first 3 /\
    In 4 (Grid.pages (Grid.paginate (Examples.grid 4 3 (PageSizeNum 10) 45))).
Proof.
  assert (Hpage : 1 <= Grid.pageIndex (Examples.grid 4 3 (PageSizeNum 10) 45)
                    <= Grid.getTotalPages (Examples.grid 4 3 (PageSizeNum 10) 45))
    by (vm_compute; split; discriminate).
  assert (Hwindow :
    1 <= opt_pageButtonCount (Grid.options (Examples.grid 4 3 (PageSizeNum 10) 45))
      <= Grid.getTotalPages (Examples.grid 4 3 (PageSizeNum 10) 45))
    by (vm_compute; split; discriminate).
  split; [exact Hpage |]. split; [exact Hwindow |].
  destruct (proj1 (paginate_window (Examples.grid 4 3 (PageSizeNum 10) 45) Hpage)
                  Hwindow)
    as [first (Heq & _ & _ & Hin)].
  exists first. split; [exact Heq | exact Hin].
Defined.

(** C3, as stated, fails for a window size of 0: on page 1 of 3 no page
    button is computed, so the current page is not among them. *)
Lemma paginate_window_of_zero :
  (1 <= Grid.pageIndex (Examples.grid 1 0 (PageSizeNum 10) 25)
     <= Grid.getTotalPages (Examples.grid 1 0 (PageSizeNum 10) 25)) /\
  opt_pageButtonCount (Grid.options (Examples.grid 1 0 (PageSizeNum 10) 25))
    <= Grid.getTotalPages (Examples.grid 1 0 (PageSizeNum 10) 25) /\
  ~ In (Grid.pageIndex (Examples.grid 1 0 (PageSizeNum 10) 25))
       (Grid.pages (Grid.paginate (Examples.grid 1 0 (PageSizeNum 10) 25))).
Proof.
  split; [vm_compute; split; discriminate |].
  split; [vm_compute; discriminate |].
  intros Hin. vm_compute in Hin. exact Hin.
Qed.

(** The window of any state with at least one total page: within
    [1, totalPages], as long as the smaller of button count and total
    pages, and, with at least one button, not empty, the first window for
    a page index at or below 1 and the last one for a page index at or
    above the total pages. *)
Lemma paginate_clamped (g : Grid.t) :
  1 <= Grid.getTotalPages g ->
  Forall (fun x => 1 <= x <= Grid.getTotalPages g)
         (Grid.pages (Grid.paginate g)) /\
  List.length (Grid.pages (Grid.paginate g)) =
    Z.to_nat (Z.min (opt_pageButtonCount (Grid.options g)) (Grid.getTotalPages g)) /\
  (1 <= opt_pageButtonCount (Grid.options g) ->
   Grid.pages (Grid.paginate g) <> [] /\
   (Grid.pageIndex g <= 1 ->
    Grid.pages (Grid.paginate g) =
      consecutive 1
        (Z.to_nat (Z.min (opt_pageButtonCount (Grid.options g))
                         (Grid.getTotalPages g)))) /\
   (Grid.getTotalPages g <= Grid.pageIndex g ->
    Grid.pages (Grid.paginate g) =
      consecutive
        (Grid.getTotalPages g
         - Z.min (opt_pageButtonCount (Grid.options g)) (Grid.getTotalPages g) + 1)
        (Z.to_nat (Z.min (opt_pageButtonCount (Grid.options g))
                         (Grid.getTotalPages g))))).
Proof.
  intros Htotal.
  pose proof (halves_add_up
    (Z.min (opt_pageButtonCount (Grid.options g)) (Grid.getTotalPages g))) as Hsum.
  pose proof (halves_exact
    (Z.min (opt_pageButtonCount (Grid.options g)) (Grid.getTotalPages g))) as Hhalf.
  assert (Hlength :
    List.length (Grid.pages (Grid.paginate g)) =
    Z.to_nat (Z.min (opt_pageButtonCount (Grid.options g)) (Grid.getTotalPages g))).
  { paginate_cases; rewrite consecutive_length; lia. }
  split; [| split; [exact Hlength |]].
  - paginate_cases; apply consecutive_Forall; lia.
  - intros Hcount. split; [| split].
    + intros Hnil. rewrite Hnil in Hlength. simpl in Hlength. lia.
    + intros Hpage. paginate_cases; f_equal; lia.
    + intros Hpage. paginate_cases; f_equal; lia.
Qed.

(** C6: [setPageIndex] stores any integer as it is given, and for at least
    one total page the window [paginate] then computes lies within
    [1, totalPages], wherever the stored index lies: it has as many pages
    as the smaller of button count and total pages and, with at least one
    button, it is not empty, it is the first window for an index at or
    below 1 and the last window for an index at or above the total
    pages. *)
Theorem setPageIndex_stored_window_clamped (g : Grid.t) (pageIndex : Z) :
  Grid.getPageIndex (Grid.setPageIndex pageIndex g) = pageIndex /\
  Grid.getTotalPages (Grid.setPageIndex pageIndex g) = Grid.getTotalPages g /\
  (1 <= Grid.getTotalPages g ->
   Forall (fun x => 1 <= x <= Grid.getTotalPages g)
          (Grid.pages (Grid.paginate (Grid.setPageIndex pageIndex g))) /\
   List.length (Grid.pages (Grid.paginate (Grid.setPageIndex pageIndex g))) =
     Z.to_nat (Z.min (opt_pageButtonCount (Grid.options g)) (Grid.getTotalPages g)) /\
   (1 <= opt_pageButtonCount (Grid.options g) ->
    Grid.pages (Grid.paginate (Grid.setPageIndex pageIndex g)) <> [] /\
    (pageIndex <= 1 ->
     Grid.pages (Grid.paginate (Grid.setPageIndex pageIndex g)) =
       consecutive 1
         (Z.to_nat (Z.min (opt_pageButtonCount (Grid.options g))
                          (Grid.getTotalPages g)))) /\
    (Grid.getTotalPages g <= pageIndex ->
     Grid.pages (Grid.paginate (Grid.setPageIndex pageIndex g)) =
       consecutive
         (Grid.getTotalPages g
          - Z.min (opt_pageButtonCount (Grid.options g)) (Grid.getTotalPages g) + 1)
         (Z.to_nat (Z.min (opt_pageButtonCount (Grid.options g))
                          (Grid.getTotalPages g)))))).
Proof.
  split; [reflexivity |]. split; [reflexivity |].
  intros Htotal.
  exact (paginate_clamped (Grid.setPageIndex pageIndex g) Htotal).
Qed.

Lemma setPageIndex_stored_window_clamped_witness :
  1 <= Grid.getTotalPages (Examples.grid 1 5 (PageSizeNum 10) 25) /\
  Grid.getPageIndex (Grid.setPageIndex 100 (Examples.grid 1 5 (PageSizeNum 10) 25)) = 100 /\
  Forall (fun x => 1 <= x <= Grid.getTotalPages (Examples.grid 1 5 (PageSizeNum 10) 25))
         (Grid.pages (Grid.paginate
            (Grid.setPageIndex 100 (Examples.grid 1 5 (PageSizeNum 10) 25)))) /\
  Grid.pages (Grid.paginate
     (Grid.setPageIndex 100 (Examples.grid 1 5 (PageSizeNum 10) 25))) = [1; 2; 3] /\
  Grid.pages (Grid.paginate
     (Grid.setPageIndex (-4) (Examples.grid 1 2 (PageSizeNum 10) 25))) = [1; 2].
Proof.
  assert (Htotal : 1 <= Grid.getTotalPages (Examples.grid 1 5 (PageSizeNum 10) 25))
    by (vm_compute; discriminate).
  assert (Htotal' : 1 <= Grid.getTotalPages (Examples.grid 1 2 (PageSizeNum 10) 25))
    by (vm_compute; discriminate).
  split; [exact Htotal |].
  destruct (setPageIndex_stored_window_clamped
              (Examples.grid 1 5 (PageSizeNum 10) 25) 100) as (Hstored & _ & Hwin).
  destruct (Hwin Htotal) as (Hrange & _ & Hends).
  destruct (Hends ltac:(vm_compute; discriminate)) as (_ & _ & Hlast).
  destruct (setPageIndex_stored_window_clamped
              (Examples.grid 1 2 (PageSizeNum 10) 25) (-4)) as (_ & _ & Hwin').
  destruct (Hwin' Htotal') as (_ & _ & Hends').
  destruct (Hends' ltac:(vm_compute; discriminate)) as (_ & Hfirst & _).
  split; [exact Hstored |]. split; [exact Hrange |]. split.
  - exact (Hlast ltac:(vm_compute; discriminate)).
  - exact (Hfirst ltac:(vm_compute; discriminate)).
Defined.

(** ** Sort-type toggle *)

Lemma differs_spec (name : string) (sortColumn : option string) :
  Grid.differs name sortColumn = true <-> Some name <> sortColumn.
Proof.
  unfold Grid.differs. destruct sortColumn as [c |].
  - destruct (String.eqb_spec name c) as [-> | Hne]; simpl.
    + split; [discriminate | intros H; now elim H].
    + split; [intros _ H; inversion H; contradiction | reflexivity].
  - split; [discriminate | reflexivity].
Qed.

(** C4: for a column other than the current sort column [getSortType]
    returns the current sort type unchanged; for the current sort column
    it returns DESC when the current type is ASC and ASC when it is
    DESC. *)
Theorem getSortType_toggle (column : GridColumn) (g : Grid.t) :
  (Some (name column) <> GridDataProvider.getSortColumn (Grid.dataProvider g) ->
   Grid.getSortType column g = GridDataProvider.getSortType (Grid.dataProvider g)) /\
  (Some (name column) = GridDataProvider.getSortColumn (Grid.dataProvider g) ->
   (GridDataProvider.getSortType (Grid.dataProvider g) = GridSort.TYPE_ASC ->
    Grid.getSortType column g = GridSort.TYPE_DESC) /\
   (GridDataProvider.getSortType (Grid.dataProvider g) = GridSort.TYPE_DESC ->
    Grid.getSortType column g = GridSort.TYPE_ASC)).
Proof.
  unfold Grid.getSortType. split.
  - intros Hne. apply differs_spec in Hne. now rewrite Hne.
  - intros Heq.
    destruct (Grid.differs (name column)
                (GridDataProvider.getSortColumn (Grid.dataProvider g))) eqn:Hd.
    + apply differs_spec in Hd. contradiction.
    + split; intros ->; reflexivity.
Qed.

Lemma getSortType_toggle_witness :
  Grid.getSortType (mkGridColumn "age" "Age") Examples.remote = GridSort.TYPE_ASC /\
  Grid.getSortType (mkGridColumn "name" "Name") Examples.remote = GridSort.TYPE_DESC /\
  Grid.getSortType (mkGridColumn "name" "Name")
    (Grid.setSort "name" (Some GridSort.TYPE_DESC) Examples.remote) = GridSort.TYPE_ASC.
Proof.
  split; [| split].
  - apply (proj1 (getSortType_toggle (mkGridColumn "age" "Age") Examples.remote)).
    discriminate.
  - apply (proj2 (getSortType_toggle (mkGridColumn "name" "Name") Examples.remote));
      reflexivity.
  - apply (proj2 (getSortType_toggle (mkGridColumn "name" "Name")
                    (Grid.setSort "name" (Some GridSort.TYPE_DESC) Examples.remote)));
      reflexivity.
Defined.

(** ** A failed fetch *)

(** C5: on a remote source whose fetch fails, [render] issues its one
    request, writes the error to the console and does nothing more:
    [getData] answers the rows it answered before, and columns, page index
    and page list stay as they were. *)
Theorem render_failure_keeps_data (g : Grid.t) (url : string) (err : JValue) :
  opt_url (Grid.options g) = Some url ->
  exists g',
    Grid.render (GridDataProvider.Failure err) g =
      Ok (g', [Grid.EvFetch (Grid.pageIndex g); Grid.EvConsoleLog err]) /\
    snd (Grid.getData g') = snd (Grid.getData g) /\
    Grid.columns g' = Grid.columns g /\
    Grid.getPageIndex g' = Grid.getPageIndex g /\
    Grid.pages g' = Grid.pages g /\
    GridDataProvider.getData (Grid.dataProvider g') =
      GridDataProvider.getData (Grid.dataProvider g) /\
    GridDataProvider.getTotalCount (Grid.dataProvider g') =
      GridDataProvider.getTotalCount (Grid.dataProvider g).
Proof.
  intros Hurl. unfold Grid.render. cbv zeta.
  cbn [Grid.options Grid.with_dataProvider]. rewrite Hurl.
  eexists. split; [reflexivity |]. repeat split.
Qed.

Lemma render_failure_keeps_data_witness :
  opt_url (Grid.options Examples.remote) = Some "/users"%string /\
  exists g',
    Grid.render (GridDataProvider.Failure (JStr "timeout")) Examples.remote =
      Ok (g', [Grid.EvFetch 2; Grid.EvConsoleLog (JStr "timeout")]) /\
    snd (Grid.getData g') =
      Some [Examples.alice; Examples.bob; Examples.carol; Examples.dave].
Proof.
  split; [reflexivity |].
  destruct (render_failure_keeps_data Examples.remote "/users" (JStr "timeout")
              eq_refl) as [g' (Heq & Hdata & _)].
  exists g'. split; [exact Heq | exact Hdata].
Defined.

(** ** Page index and setters *)

(** C9: [setFilter] and [setPageSize] leave the page index at 1 whatever it
    was; [setSort] and [getData] leave it as it was. *)
Theorem page_index_after_setters (g : Grid.t) :
  (forall columnName value : string,
      Grid.getPageIndex (Grid.setFilter columnName value g) = 1) /\
  (forall pageSize : Z,
      Grid.getPageIndex (Grid.setPageSize pageSize g) = 1) /\
  (forall (sortColumn : string) (sortType : option string),
      Grid.getPageIndex (Grid.setSort sortColumn sortType g) = Grid.getPageIndex g) /\
  Grid.getPageIndex (fst (Grid.getData g)) = Grid.getPageIndex g.
Proof. repeat split. Qed.

(** ** Selected items *)

(** C10: on a page of rows (none of them [null] or [undefined])
    [getSelectedItems] answers exactly the rows whose [selected] flag is
    truthy, in the order of [getData], and leaves the grid as it was; a row
    without a [selected] flag is not among them. *)
Theorem getSelectedItems_filter (g : Grid.t) (rows : list JValue) :
  snd (Grid.getData g) = Some rows ->
  Forall (fun row => nullish row = false) rows ->
  Grid.getSelectedItems g = (g, Ok (filter selected rows)) /\
  snd (Grid.getData (fst (Grid.getSelectedItems g))) = Some rows /\
  (forall row, lookup_field "selected" (own_fields row) = JUndefined ->
               ~ In row (filter selected rows)).
Proof.
  simpl. intros Hdata Hrows. unfold Grid.getSelectedItems. rewrite Hdata.
  rewrite (selected_loop_filter rows Hrows []). simpl.
  repeat split; try assumption.
  intros row Hflag Hin. apply filter_In in Hin as [_ Hsel].
  unfold selected in Hsel. rewrite Hflag in Hsel. discriminate.
Qed.

Lemma getSelectedItems_filter_witness :
  snd (Grid.getData Examples.remote) =
    Some [Examples.alice; Examples.bob; Examples.carol; Examples.dave] /\
  Grid.getSelectedItems Examples.remote =
    (Examples.remote, Ok [Examples.alice; Examples.dave]).
Proof.
  split; [reflexivity |].
  apply (getSelectedItems_filter Examples.remote
           [Examples.alice; Examples.bob; Examples.carol; Examples.dave]);
    [reflexivity | repeat constructor].
Defined.

(** ** The column set *)

(** C8: once the grid has columns, no refresh and no run of setter calls
    and renders changes them; a refresh changes the columns only when the
    grid has none and the provider has rows, and then it heads the columns
    by the keys of the first row; and a grid set up with configured columns
    starts with exactly those. *)
Theorem columns_fixed_once_set :
  (forall (g : Grid.t) (intents : list Intent),
      Grid.columns g <> [] ->
      exists g', run intents g = Ok g' /\ Grid.columns g' = Grid.columns g) /\
  (forall g : Grid.t,
      Grid.columns g <> [] ->
      exists g', Grid.refresh g = Ok g' /\ Grid.columns g' = Grid.columns g) /\
  (forall g g' : Grid.t,
      Grid.refresh g = Ok g' ->
      Grid.columns g' <> Grid.columns g ->
      Grid.columns g = [] /\
      GridDataProvider.getData (Grid.dataProvider g) <> []) /\
  (forall g g' : Grid.t,
      Grid.refresh g = Ok g' ->
      Grid.columns g = [] ->
      GridDataProvider.getData (Grid.dataProvider g) <> [] ->
      map heading (Grid.columns g') =
      keys (nth 0 (GridDataProvider.getData (Grid.dataProvider g)) JUndefined)) /\
  (forall g : Grid.t,
      Grid.columns g = [] ->
      opt_columns (Grid.options g) <> [] ->
      Grid.columns (Grid.initColumns g) = opt_columns (Grid.options g)).
Proof.
  split; [| split; [| split; [| split]]].
  - intros g intents Hne.
    destruct (run_total intents g) as [g' [Hrun Hcols]].
    exists g'. split; [exact Hrun | exact (Hcols Hne)].
  - intros g Hne.
    destruct (refresh_total g) as [g' [Heq [(_ & _ & Hcols) _]]].
    exists g'. split; [exact Heq | exact (Hcols Hne)].
  - intros g g' Heq Hchanged.
    destruct (refresh_total g) as [g1 [Heq1 (_ & _ & Honly & _)]].
    rewrite Heq in Heq1. injection Heq1 as <-. exact (Honly Hchanged).
  - intros g g' Heq Hnone Hrows.
    destruct (refresh_total g) as [g1 [Heq1 (_ & _ & _ & Hinfer)]].
    rewrite Heq in Heq1. injection Heq1 as <-. exact (Hinfer Hnone Hrows).
  - intros g Hnone Hconfigured. unfold Grid.initColumns.
    destruct (opt_columns (Grid.options g)) as [| c cs]; [contradiction |].
    simpl. now rewrite Hnone.
Qed.

Lemma columns_fixed_once_set_witness :
  Grid.columns Examples.remote <> [] /\
  exists g',
    run [SetPageIndex 3;
         Render (GridDataProvider.Success [Examples.china] 12);
         SetFilter "name" "a";
         Render (GridDataProvider.Failure JNull);
         SetSort "name" None;
         SetPageSize 2;
         Render (GridDataProvider.Success [] 0)] Examples.remote = Ok g' /\
    Grid.columns g' = [mkGridColumn "name" "name"].
Proof.
  assert (Hne : Grid.columns Examples.remote <> []) by discriminate.
  split; [exact Hne |].
  exact (proj1 columns_fixed_once_set Examples.remote _ Hne).
Defined.

(** ** Nested column names *)

(** For a nested mapping the inferred name is the top-level key and the
    first key below it, whatever lies deeper. *)
Lemma getColumnName_nested (key firstKey : string) (row firstKeyValue : JValue)
      (rest : list (string * JValue)) :
  nullish row = false ->
  lookup_field key (own_fields row) = JObj ((firstKey, firstKeyValue) :: rest) ->
  Grid.getColumnName key row = Ok (key ++ "." ++ firstKey)%string.
Proof.
  intros Hrow Hvalue. rewrite getColumnName_closed by assumption.
  cbv zeta. rewrite Hvalue. reflexivity.
Qed.

(** With a scalar under that first key the name is the documented dotted
    path. *)
Lemma getColumnName_two_levels (key firstKey : string) (row firstKeyValue : JValue)
      (rest : list (string * JValue)) :
  nullish row = false ->
  lookup_field key (own_fields row) = JObj ((firstKey, firstKeyValue) :: rest) ->
  isObject firstKeyValue = false ->
  Grid.getColumnName key row =
  Ok (key ++ "." ++ first_key_path (JObj ((firstKey, firstKeyValue) :: rest)))%string.
Proof.
  intros Hrow Hvalue Hscalar.
  rewrite (getColumnName_nested key firstKey row firstKeyValue rest Hrow Hvalue).
  simpl. now rewrite Hscalar.
Qed.

(** C2 on the record of the documentation of [getNestedKey]: the inferred
    column is headed "country" and is the only one, but its name is
    "country.name", two levels deep, while the path down to the first
    scalar is "country.name.officialName". *)
Theorem inferred_name_stops_at_second_level :
  Grid.getNestedKey Examples.china = Ok (Some "country"%string) /\
  first_key_path Examples.china = "country.name.officialName"%string /\
  Grid.getColumnName "country" Examples.china = Ok "country.name"%string /\
  Grid.setColumnsFromData [Examples.china] (Examples.grid 1 5 (PageSizeNum 10) 1) =
    Ok (Grid.with_columns [mkGridColumn "country.name" "country"]
                          (Examples.grid 1 5 (PageSizeNum 10) 1)).
Proof. repeat split. Qed.


(** * Further properties of the class *)

(** ** The shape of the window *)

(** The three facts about the two offsets of [paginate]. *)
Ltac window_offsets g :=
  pose proof (halves_add_up
    (Z.min (opt_pageButtonCount (Grid.options g)) (Grid.getTotalPages g)));
  pose proof (halves_exact
    (Z.min (opt_pageButtonCount (Grid.options g)) (Grid.getTotalPages g))).

(** Whatever the page index, the window is a run of consecutive integers
    with as many entries as the smaller of the page-button count and the
    total pages (none when that is 0 or less). *)
Theorem paginate_length (g : Grid.t) :
  exists first : Z,
    Grid.pages (Grid.paginate g) =
      consecutive first
        (Z.to_nat (Z.min (opt_pageButtonCount (Grid.options g))
                         (Grid.getTotalPages g))) /\
    List.length (Grid.pages (Grid.paginate g)) =
      Z.to_nat (Z.min (opt_pageButtonCount (Grid.options g))
                      (Grid.getTotalPages g)).
Proof.
  window_offsets g.
  assert (Hshape : exists first : Z,
    Grid.pages (Grid.paginate g) =
      consecutive first
        (Z.to_nat (Z.min (opt_pageButtonCount (Grid.options g))
                         (Grid.getTotalPages g)))).
  { paginate_cases; eexists; f_equal; lia. }
  destruct Hshape as [first Heq]. exists first.
  split; [exact Heq |]. rewrite Heq. apply consecutive_length.
Qed.

(** With at least one button and one page, a page index at or below 1
    shows the first window, and one at or above the total pages shows the
    last window. *)
Theorem paginate_at_the_ends (g : Grid.t) :
  1 <= opt_pageButtonCount (Grid.options g) ->
  1 <= Grid.getTotalPages g ->
  (Grid.pageIndex g <= 1 ->
   Grid.pages (Grid.paginate g) =
     consecutive 1
       (Z.to_nat (Z.min (opt_pageButtonCount (Grid.options g))
                        (Grid.getTotalPages g)))) /\
  (Grid.getTotalPages g <= Grid.pageIndex g ->
   Grid.pages (Grid.paginate g) =
     consecutive
       (Grid.getTotalPages g
        - Z.min (opt_pageButtonCount (Grid.options g)) (Grid.getTotalPages g) + 1)
       (Z.to_nat (Z.min (opt_pageButtonCount (Grid.options g))
                        (Grid.getTotalPages g)))).
Proof.
  intros Hcount Htotal. window_offsets g.
  split; intros Hpage; paginate_cases; f_equal; lia.
Qed.

Lemma paginate_at_the_ends_witness :
  1 <= opt_pageButtonCount (Grid.options (Examples.grid (-3) 4 (PageSizeNum 10) 95)) /\
  1 <= Grid.getTotalPages (Examples.grid (-3) 4 (PageSizeNum 10) 95) /\
  Grid.pages (Grid.paginate (Examples.grid (-3) 4 (PageSizeNum 10) 95)) = [1; 2; 3; 4] /\
  Grid.pages (Grid.paginate (Examples.grid 70 4 (PageSizeNum 10) 95)) = [7; 8; 9; 10].
Proof.
  assert (Hcount : 1 <= 4) by lia.
  assert (Htotal : 1 <= Grid.getTotalPages (Examples.grid (-3) 4 (PageSizeNum 10) 95))
    by (vm_compute; discriminate).
  split; [exact Hcount |]. split; [exact Htotal |]. split.
  - apply (proj1 (paginate_at_the_ends (Examples.grid (-3) 4 (PageSizeNum 10) 95)
                    Hcount Htotal)).
    vm_compute; discriminate.
  - apply (proj2 (paginate_at_the_ends (Examples.grid 70 4 (PageSizeNum 10) 95)
                    Hcount Htotal)).
    vm_compute; discriminate.
Defined.

(** Away from both ends the window is centred on the page index: [k]
    buttons on either side for an odd count of [2k + 1]; for an even count
    of [2k] the left side has [k] and the right side [k - 1]. *)
Theorem paginate_centred (g : Grid.t) (k : Z) :
  0 <= k ->
  (Z.min (opt_pageButtonCount (Grid.options g)) (Grid.getTotalPages g) = 2 * k + 1 ->
   1 <= Grid.pageIndex g - k ->
   Grid.pageIndex g + k <= Grid.getTotalPages g ->
   Grid.pages (Grid.paginate g) =
     consecutive (Grid.pageIndex g - k) (Z.to_nat (2 * k + 1))) /\
  (1 <= k ->
   Z.min (opt_pageButtonCount (Grid.options g)) (Grid.getTotalPages g) = 2 * k ->
   1 <= Grid.pageIndex g - k ->
   Grid.pageIndex g + k - 1 <= Grid.getTotalPages g ->
   Grid.pages (Grid.paginate g) =
     consecutive (Grid.pageIndex g - k) (Z.to_nat (2 * k))).
Proof.
  intros Hk. window_offsets g.
  split; [intros Hodd Hlow Hhigh | intros Hk1 Heven Hlow Hhigh];
    paginate_cases; f_equal; lia.
Qed.

Lemma paginate_centred_witness :
  Grid.pages (Grid.paginate (Examples.grid 6 5 (PageSizeNum 10) 95)) = [4; 5; 6; 7; 8] /\
  Grid.pages (Grid.paginate (Examples.grid 6 4 (PageSizeNum 10) 95)) = [4; 5; 6; 7].
Proof.
  split.
  - apply (proj1 (paginate_centred (Examples.grid 6 5 (PageSizeNum 10) 95) 2
                    ltac:(lia)));
      vm_compute; try reflexivity; discriminate.
  - apply (proj2 (paginate_centred (Examples.grid 6 4 (PageSizeNum 10) 95) 2
                    ltac:(lia)));
      vm_compute; try reflexivity; discriminate.
Defined.

(** The window is computed from the page index, the button count and the
    total pages alone: what the page list held before plays no part, and
    computing it again changes nothing. *)
Lemma paginate_idempotent (g : Grid.t) (pages : list Z) :
  Grid.paginate (Grid.with_pages pages g) = Grid.paginate g /\
  Grid.paginate (Grid.paginate g) = Grid.paginate g.
Proof.
  assert (Hforget : forall ps, Grid.paginate (Grid.with_pages ps g) = Grid.paginate g)
    by reflexivity.
  split; [apply Hforget |].
  rewrite (paginate_frame g) at 1. apply Hforget.
Qed.

(** ** Page counts *)

(** For a page size above 0 and a total count of 0 or more there are never
    more pages than records, there is exactly one page just when the
    records fit on one page (and there is one at least), and records of
    one per page make as many pages as records. *)
Theorem getTotalPages_bounds (g : Grid.t) (pageSize : Z) :
  Grid.getPageSize g = PageSizeNum pageSize ->
  0 < pageSize ->
  0 <= GridDataProvider.getTotalCount (Grid.dataProvider g) ->
  0 <= Grid.getTotalPages g <= GridDataProvider.getTotalCount (Grid.dataProvider g) /\
  (Grid.getTotalPages g = 1 <->
   0 < GridDataProvider.getTotalCount (Grid.dataProvider g) <= pageSize) /\
  (pageSize = 1 ->
   Grid.getTotalPages g = GridDataProvider.getTotalCount (Grid.dataProvider g)).
Proof.
  unfold Grid.getPageSize, Grid.getTotalPages. intros -> Hsize Hcount.
  pose proof (ceil_div_is_ceiling
                (GridDataProvider.getTotalCount (Grid.dataProvider g))
                pageSize Hsize) as Hceil.
  unfold is_ceiling in Hceil. repeat split; try nia.
Qed.

Lemma getTotalPages_bounds_witness :
  0 < 10 /\ 0 <= 7 /\
  (Grid.getTotalPages (Examples.grid 1 5 (PageSizeNum 10) 7) = 1 <-> 0 < 7 <= 10).
Proof.
  split; [lia |]. split; [lia |].
  apply (getTotalPages_bounds (Examples.grid 1 5 (PageSizeNum 10) 7) 10);
    [reflexivity | lia | simpl; lia].
Defined.

(** More records never make fewer pages, and a larger page never makes
    more pages. *)
Theorem getTotalPages_monotone (g g' : Grid.t) (pageSize pageSize' : Z) :
  Grid.getPageSize g = PageSizeNum pageSize ->
  Grid.getPageSize g' = PageSizeNum pageSize' ->
  0 < pageSize <= pageSize' ->
  0 <= GridDataProvider.getTotalCount (Grid.dataProvider g') ->
  GridDataProvider.getTotalCount (Grid.dataProvider g')
    <= GridDataProvider.getTotalCount (Grid.dataProvider g) ->
  Grid.getTotalPages g' <= Grid.getTotalPages g.
Proof.
  unfold Grid.getPageSize, Grid.getTotalPages. intros -> -> Hsize Hcount Hle.
  pose proof (ceil_div_is_ceiling
                (GridDataProvider.getTotalCount (Grid.dataProvider g))
                pageSize ltac:(lia)) as Hceil.
  pose proof (ceil_div_is_ceiling
                (GridDataProvider.getTotalCount (Grid.dataProvider g'))
                pageSize' ltac:(lia)) as Hceil'.
  unfold is_ceiling in *.
  set (q := ceil_div (GridDataProvider.getTotalCount (Grid.dataProvider g)) pageSize) in *.
  set (q' := ceil_div (GridDataProvider.getTotalCount (Grid.dataProvider g')) pageSize') in *.
  assert (Hq : 0 <= q) by nia.
  destruct (Z_le_gt_dec q' q) as [Hle' | Hgt]; [exact Hle' | exfalso].
  assert (Hwide : q * pageSize <= q * pageSize') by nia.
  assert (Hmore : q * pageSize' <= (q' - 1) * pageSize') by nia.
  lia.
Qed.

Lemma getTotalPages_monotone_witness :
  Grid.getTotalPages (Examples.grid 1 5 (PageSizeNum 20) 25)
    <= Grid.getTotalPages (Examples.grid 1 5 (PageSizeNum 10) 95).
Proof.
  apply (getTotalPages_monotone (Examples.grid 1 5 (PageSizeNum 10) 95)
           (Examples.grid 1 5 (PageSizeNum 20) 25) 10 20);
    [reflexivity | reflexivity | lia | simpl; lia | simpl; lia].
Defined.



(** ** Selection *)

Lemma lookup_set_field_same (k : string) (x : JValue) (fields : list (string * JValue)) :
  lookup_field k (set_field k x fields) = x.
Proof.
  induction fields as [| [k' v] rest IH]; simpl.
  - now rewrite String.eqb_refl.
  - destruct (String.eqb k k') eqn:Hk; simpl; rewrite Hk; [reflexivity | exact IH].
Qed.

Lemma lookup_set_field_other (k k' : string) (x : JValue)
      (fields : list (string * JValue)) :
  k' <> k ->
  lookup_field k' (set_field k x fields) = lookup_field k' fields.
Proof.
  intros Hne. induction fields as [| [k0 v] rest IH]; simpl.
  - destruct (String.eqb_spec k' k); [contradiction | reflexivity].
  - destruct (String.eqb_spec k k0) as [-> | Hk]; simpl.
    + destruct (String.eqb_spec k' k0); [contradiction | reflexivity].
    + destruct (String.eqb k' k0); [reflexivity | exact IH].
Qed.

Lemma set_selected_marked (flag : bool) (row : JValue) :
  isObject row = true ->
  exists row', set row "selected" (JBool flag) = Ok row' /\ marked flag row row'.
Proof.
  destruct row as [| | b | n | s | fields]; try discriminate. intros _.
  eexists. split; [reflexivity |]. repeat split; simpl.
  - apply lookup_set_field_same.
  - intros k Hk. now apply lookup_set_field_other.
Qed.

Lemma marked_selected (flag : bool) (row row' : JValue) :
  marked flag row row' -> selected row' = flag /\ nullish row' = false.
Proof.
  intros (Hobj & Hflag & _). unfold selected. rewrite Hflag.
  split; [reflexivity |]. destruct row'; try discriminate; reflexivity.
Qed.

Lemma select_loop_marked (flag : bool) (rows : list JValue) :
  Forall (fun row => isObject row = true) rows ->
  exists rows', Grid.select_loop flag rows = Ok rows' /\
                Forall2 (marked flag) rows rows'.
Proof.
  induction 1 as [| row rest Hrow _ [rest' [Heq Hrest]]]; simpl.
  - exists []. split; [reflexivity | constructor].
  - destruct (set_selected_marked flag row Hrow) as [row' [Hset Hmarked]].
    rewrite Hset. cbn [bind]. rewrite Heq. cbn [bind].
    exists (row' :: rest'). split; [reflexivity | now constructor].
Qed.

Lemma select_loop_throws (flag : bool) (rows : list JValue) :
  Exists (fun row => isObject row = false) rows ->
  Grid.select_loop flag rows = TypeError.
Proof.
  induction 1 as [row rest Hrow | row rest _ IH]; simpl.
  - destruct row; try discriminate; reflexivity.
  - destruct (set row "selected" (JBool flag)); [| reflexivity].
    cbn [bind]. now rewrite IH.
Qed.

Lemma filter_marked (flag : bool) (rows rows' : list JValue) :
  Forall2 (marked flag) rows rows' ->
  filter selected rows' = (if flag then rows' else []) /\
  Forall (fun row => nullish row = false) rows'.
Proof.
  induction 1 as [| row row' rest rest' Hmarked _ [IHf IHn]]; simpl.
  - destruct flag; split; constructor.
  - destruct (marked_selected flag row row' Hmarked) as [Hsel Hnull].
    rewrite Hsel, IHf. split; [destruct flag; reflexivity | now constructor].
Qed.

(** [getSelectedItems] throws exactly on a grid whose rows are still
    undefined and on a page with a row that is [null] or [undefined]. *)
Theorem getSelectedItems_throws (g : Grid.t) :
  snd (Grid.getSelectedItems g) = TypeError <->
  snd (Grid.getData g) = None \/
  exists rows, snd (Grid.getData g) = Some rows /\
               Exists (fun row => nullish row = true) rows.
Proof.
  simpl. destruct (Grid.data g) as [rows |].
  - destruct (Forall_Exists_dec (fun row => nullish row = false)
                (fun row => bool_dec (nullish row) false) rows) as [Hall | Hsome].
    + rewrite (selected_loop_filter rows Hall). split; [discriminate |].
      intros [Hnone | [rows' [Heq Hex]]]; [discriminate |].
      injection Heq as <-. apply Exists_exists in Hex as [row [Hin Hrow]].
      rewrite Forall_forall in Hall. rewrite (Hall row Hin) in Hrow. discriminate.
    + assert (Hex : Exists (fun row => nullish row = true) rows).
      { apply Exists_exists in Hsome as [row [Hin Hrow]].
        apply Exists_exists. exists row. split; [exact Hin |].
        destruct (nullish row); [reflexivity | contradiction]. }
      rewrite (selected_loop_throws rows Hex). split; [| reflexivity].
      intros _. right. exists rows. split; [reflexivity | exact Hex].
  - split; [now left | reflexivity].
Qed.

(** On a page of objects [onSelectAllCheckboxClick] sets the flag of every
    row and keeps whatever else the rows hold, row by row; after a click
    with [true] the selected items are all the rows, after a click with
    [false] there are none. *)
Theorem onSelectAllCheckboxClick_selects (flag : bool) (g : Grid.t)
        (rows : list JValue) :
  snd (Grid.getData g) = Some rows ->
  Forall (fun row => isObject row = true) rows ->
  exists rows',
    Grid.onSelectAllCheckboxClick flag g = Ok (Grid.with_data (Some rows') g) /\
    Forall2 (marked flag) rows rows' /\
    snd (Grid.getSelectedItems (Grid.with_data (Some rows') g)) =
      Ok (if flag then rows' else []).
Proof.
  simpl. intros Hdata Hrows. unfold Grid.onSelectAllCheckboxClick. rewrite Hdata.
  destruct (select_loop_marked flag rows Hrows) as [rows' [Heq Hmarked]].
  exists rows'. rewrite Heq. cbn [bind].
  split; [reflexivity |]. split; [exact Hmarked |].
  destruct (filter_marked flag rows rows' Hmarked) as [Hfilter Hnull].
  rewrite (selected_loop_filter rows' Hnull). simpl. now rewrite Hfilter.
Qed.

Lemma onSelectAllCheckboxClick_selects_witness :
  exists rows',
    Grid.onSelectAllCheckboxClick true Examples.remote =
      Ok (Grid.with_data (Some rows') Examples.remote) /\
    snd (Grid.getSelectedItems (Grid.with_data (Some rows') Examples.remote)) =
      Ok rows'.
Proof.
  destruct (onSelectAllCheckboxClick_selects true Examples.remote
              [Examples.alice; Examples.bob; Examples.carol; Examples.dave]
              eq_refl ltac:(repeat constructor))
    as [rows' (Heq & _ & Hsel)].
  exists rows'. split; [exact Heq | exact Hsel].
Defined.

(** [onSelectAllCheckboxClick] throws exactly on a grid whose rows are
    still undefined and on a page with a row that is no object. *)
Theorem onSelectAllCheckboxClick_throws (flag : bool) (g : Grid.t) :
  Grid.onSelectAllCheckboxClick flag g = TypeError <->
  snd (Grid.getData g) = None \/
  exists rows, snd (Grid.getData g) = Some rows /\
               Exists (fun row => isObject row = false) rows.
Proof.
  simpl. unfold Grid.onSelectAllCheckboxClick.
  destruct (Grid.data g) as [rows |].
  - destruct (Forall_Exists_dec (fun row => isObject row = true)
                (fun row => bool_dec (isObject row) true) rows) as [Hall | Hsome].
    + destruct (select_loop_marked flag rows Hall) as [rows' [Heq _]].
      rewrite Heq. cbn [bind]. split; [discriminate |].
      intros [Hnone | [rows0 [Heq0 Hex]]]; [discriminate |].
      injection Heq0 as <-. apply Exists_exists in Hex as [row [Hin Hrow]].
      rewrite Forall_forall in Hall. rewrite (Hall row Hin) in Hrow. discriminate.
    + assert (Hex : Exists (fun row => isObject row = false) rows).
      { apply Exists_exists in Hsome as [row [Hin Hrow]].
        apply Exists_exists. exists row. split; [exact Hin |].
        destruct (isObject row); [contradiction | reflexivity]. }
      rewrite (select_loop_throws flag rows Hex). split; [| reflexivity].
      intros _. right. exists rows. split; [reflexivity | exact Hex].
  - split; [now left | reflexivity].
Qed.

Lemma getSelectedItems_throws_witness :
  snd (Grid.getSelectedItems (Examples.grid 1 5 (PageSizeNum 10) 25)) = TypeError /\
  snd (Grid.getSelectedItems
         (Grid.with_data (Some [Examples.alice; JNull]) Examples.remote)) = TypeError.
Proof.
  split.
  - apply (proj2 (getSelectedItems_throws (Examples.grid 1 5 (PageSizeNum 10) 25))).
    left. reflexivity.
  - apply (proj2 (getSelectedItems_throws
                    (Grid.with_data (Some [Examples.alice; JNull]) Examples.remote))).
    right. exists [Examples.alice; JNull]. split; [reflexivity |].
    apply Exists_cons_tl, Exists_cons_hd. reflexivity.
Defined.

Lemma onSelectAllCheckboxClick_throws_witness :
  Grid.onSelectAllCheckboxClick true
    (Grid.with_data (Some [Examples.alice; JNum 7]) Examples.remote) = TypeError.
Proof.
  apply (proj2 (onSelectAllCheckboxClick_throws true
                  (Grid.with_data (Some [Examples.alice; JNum 7]) Examples.remote))).
  right. exists [Examples.alice; JNum 7]. split; [reflexivity |].
  apply Exists_cons_tl, Exists_cons_hd. reflexivity.
Defined.

(** No index of a string is the key [selected]. *)
Lemma string_has_no_flag (s : string) :
  lookup_field "selected" (own_fields (JStr s)) = JUndefined.
Proof.
  assert (Hkeys : forall (ks : list string) (vs : list JValue),
    Forall (fun k => String.eqb "selected" k = false) ks ->
    lookup_field "selected" (combine ks vs) = JUndefined).
  { induction ks as [| k ks IH]; intros vs Hks; [reflexivity |].
    destruct vs as [| v vs]; [reflexivity |].
    inversion Hks as [| ? ? Hk Hrest]; subst.
    cbn [combine lookup_field]. rewrite Hk. now apply IH. }
  apply Hkeys. apply Forall_forall. intros k Hin.
  apply in_map_iff in Hin as [i [<- _]].
  unfold index_key, NilZero.string_of_uint.
  destruct (Nat.to_uint i); reflexivity.
Qed.

Lemma click_marked (item : JValue) :
  isObject item = true ->
  exists item',
    Grid.onSelectItemCheckboxClick item = Ok item' /\
    marked (negb (selected item)) item item'.
Proof.
  destruct item as [| | b | n | s | fields]; try discriminate. intros _.
  unfold Grid.onSelectItemCheckboxClick, get, selected. simpl.
  destruct (isUndefined (lookup_field "selected" fields)) eqn:Hundef.
  - cbn [bind set nullish own_fields].
    rewrite lookup_set_field_same. simpl.
    assert (Hflag : lookup_field "selected" fields = JUndefined)
      by (destruct (lookup_field "selected" fields); try discriminate; reflexivity).
    rewrite Hflag. simpl.
    eexists. split; [reflexivity |]. repeat split; simpl.
    + apply lookup_set_field_same.
    + intros k Hk. now rewrite !lookup_set_field_other.
  - cbn [bind set nullish own_fields].
    eexists. split; [reflexivity |]. repeat split; simpl.
    + apply lookup_set_field_same.
    + intros k Hk. now apply lookup_set_field_other.
Qed.

(** On an object [onSelectItemCheckboxClick] sets the flag to the boolean
    opposite of what the flag was worth (so an item without a flag becomes
    selected) and keeps whatever else the item holds; on anything but an
    object it throws. *)
Theorem onSelectItemCheckboxClick_toggles (item : JValue) :
  (isObject item = true ->
   exists item',
     Grid.onSelectItemCheckboxClick item = Ok item' /\
     marked (negb (selected item)) item item') /\
  (isObject item = false -> Grid.onSelectItemCheckboxClick item = TypeError).
Proof.
  split; [apply click_marked |].
  destruct item as [| | b | n | s | fields]; try discriminate;
    try reflexivity.
  intros _. unfold Grid.onSelectItemCheckboxClick, get. simpl.
  change (string_chars s) with (own_fields (JStr s)).
  rewrite string_has_no_flag. reflexivity.
Qed.

Lemma onSelectItemCheckboxClick_toggles_witness :
  exists item',
    Grid.onSelectItemCheckboxClick Examples.bob = Ok item' /\
    marked true Examples.bob item'.
Proof.
  apply (proj1 (onSelectItemCheckboxClick_toggles Examples.bob)). reflexivity.
Defined.

(** Two clicks on an item give it back with the worth of its flag as it
    was and with whatever else it held. *)
Theorem onSelectItemCheckboxClick_twice (item : JValue) :
  isObject item = true ->
  exists item'',
    (item' <- Grid.onSelectItemCheckboxClick item ;;
     Grid.onSelectItemCheckboxClick item') = Ok item'' /\
    marked (selected item) item item''.
Proof.
  intros Hobj.
  destruct (click_marked item Hobj)
    as [item' [Heq (Hobj' & Hflag' & Hrest')]].
  rewrite Heq. cbn [bind].
  destruct (click_marked item' Hobj')
    as [item'' [Heq' (Hobj'' & Hflag'' & Hrest'')]].
  exists item''. split; [exact Heq' |]. repeat split.
  - exact Hobj''.
  - rewrite Hflag''. unfold selected at 1. rewrite Hflag'. simpl.
    now rewrite negb_involutive.
  - intros k Hk. now rewrite Hrest'', Hrest'.
Qed.

Lemma onSelectItemCheckboxClick_twice_witness :
  exists item'',
    (item' <- Grid.onSelectItemCheckboxClick Examples.dave ;;
     Grid.onSelectItemCheckboxClick item') = Ok item'' /\
    marked true Examples.dave item''.
Proof.
  apply (onSelectItemCheckboxClick_twice Examples.dave). reflexivity.
Defined.

(** A click on one row of the page changes the selected items by that row
    alone: it joins them if it was not selected and leaves them if it
    was, and the rows before and after it stay in or out as they were. *)
Theorem onSelectItemCheckboxClick_one_row (g : Grid.t)
        (before after : list JValue) (item : JValue) :
  Forall (fun row => nullish row = false) (before ++ after) ->
  isObject item = true ->
  exists item',
    Grid.onSelectItemCheckboxClick item = Ok item' /\
    snd (Grid.getSelectedItems
           (Grid.with_data (Some (before ++ item' :: after)) g)) =
      Ok (filter selected before
          ++ (if selected item then [] else [item'])
          ++ filter selected after).
Proof.
  intros Hrows Hobj.
  destruct (click_marked item Hobj) as [item' [Heq Hmarked]].
  exists item'. split; [exact Heq |].
  destruct (marked_selected _ _ _ Hmarked) as [Hsel Hnull].
  apply Forall_app in Hrows as [Hbefore Hafter].
  simpl. rewrite selected_loop_filter.
  - simpl. rewrite filter_app. simpl. rewrite Hsel.
    destruct (selected item); reflexivity.
  - apply Forall_app. split; [exact Hbefore | now constructor].
Qed.

Lemma onSelectItemCheckboxClick_one_row_witness :
  exists item',
    Grid.onSelectItemCheckboxClick Examples.bob = Ok item' /\
    snd (Grid.getSelectedItems
           (Grid.with_data
              (Some ([Examples.alice] ++ item' :: [Examples.carol; Examples.dave]))
              Examples.remote)) =
      Ok ([Examples.alice] ++ [item'] ++ [Examples.dave]).
Proof.
  apply (onSelectItemCheckboxClick_one_row Examples.remote
           [Examples.alice] [Examples.carol; Examples.dave] Examples.bob);
    [repeat constructor | reflexivity].
Defined.

(** ** Inferred columns *)

Lemma prefix_append (s t : string) : String.prefix s (s ++ t) = true.
Proof.
  induction s as [| a s IH]; simpl.
  - destruct t; reflexivity.
  - destruct (ascii_dec a a); [exact IH | contradiction].
Qed.

Lemma prefix_refl (s : string) : String.prefix s s = true.
Proof.
  induction s as [| a s IH]; simpl; [reflexivity |].
  destruct (ascii_dec a a); [exact IH | contradiction].
Qed.

Lemma getColumnName_inferred (key : string) (row : JValue) :
  nullish row = false ->
  Grid.getColumnName key row = Ok (inferred_name key row).
Proof.
  intros Hrow. rewrite getColumnName_closed by assumption.
  unfold inferred_name. cbv zeta.
  destruct (lookup_field key (own_fields row)) as [| | b | n | s | fields];
    try reflexivity.
  destruct fields as [| [firstKey firstKeyValue] rest]; reflexivity.
Qed.

Lemma push_columns_inferred (firstRow : JValue) (ks : list string) :
  nullish firstRow = false ->
  forall columns,
    Grid.push_columns ks firstRow columns =
    Ok (columns ++ map (fun key => mkGridColumn (inferred_name key firstRow) key) ks).
Proof.
  intros Hrow. induction ks as [| key rest IH]; intros columns; simpl.
  - now rewrite app_nil_r.
  - rewrite getColumnName_inferred by assumption. cbn [bind].
    rewrite IH, <- app_assoc. reflexivity.
Qed.

Lemma setColumnsFromData_closed (data : list JValue) (g : Grid.t) :
  Grid.setColumnsFromData data g =
  Ok (Grid.with_columns
        (Grid.columns g ++ inferred_columns (nth 0 data JUndefined)) g).
Proof.
  unfold Grid.setColumnsFromData, inferred_columns. cbv zeta.
  destruct (nullish (nth 0 data JUndefined)) eqn:Hrow.
  - rewrite (keys_nullish _ Hrow). simpl. now rewrite app_nil_r.
  - now rewrite push_columns_inferred.
Qed.

(** [setColumnsFromData] never throws.  It keeps the columns there are and
    appends one column per key of the first row, in the order of the keys,
    each headed by its key; the rows after the first play no part, and
    without a first row, or with one that has no keys, nothing is
    appended. *)
Theorem setColumnsFromData_appends (data : list JValue) (g : Grid.t) :
  Grid.setColumnsFromData data g =
    Ok (Grid.with_columns
          (Grid.columns g ++ inferred_columns (nth 0 data JUndefined)) g) /\
  map heading (inferred_columns (nth 0 data JUndefined)) =
    keys (nth 0 data JUndefined) /\
  Grid.setColumnsFromData data g =
    Grid.setColumnsFromData (firstn 1 data) g /\
  (keys (nth 0 data JUndefined) = [] ->
   Grid.setColumnsFromData data g = Ok g).
Proof.
  split; [apply setColumnsFromData_closed |]. split; [| split].
  - unfold inferred_columns. rewrite map_map. simpl. apply map_id.
  - rewrite !setColumnsFromData_closed. destruct data; reflexivity.
  - intros Hkeys. rewrite setColumnsFromData_closed.
    unfold inferred_columns. rewrite Hkeys.
    simpl. rewrite app_nil_r. destruct g; reflexivity.
Qed.

Lemma setColumnsFromData_appends_witness :
  Grid.setColumnsFromData [JObj []; Examples.alice] Examples.remote =
    Ok Examples.remote.
Proof.
  apply (setColumnsFromData_appends [JObj []; Examples.alice] Examples.remote).
  reflexivity.
Defined.

Lemma keys_not_nullish (key : string) (row : JValue) :
  In key (keys row) -> nullish row = false.
Proof.
  intros Hin. destruct (nullish row) eqn:Hrow; [| reflexivity].
  rewrite (keys_nullish row Hrow) in Hin. contradiction.
Qed.

(** [getColumnName] throws on a row that is [null] or [undefined]; for a
    key the row owns it answers a name that starts with the key: the key
    itself when the value under it is no object, and the key followed by
    ".undefined" when that value is an object without keys. *)
Theorem getColumnName_edges (key : string) (row : JValue) :
  (nullish row = true -> Grid.getColumnName key row = TypeError) /\
  (In key (keys row) ->
   exists n : string,
     Grid.getColumnName key row = Ok n /\
     String.prefix key n = true /\
     (isObject (lookup_field key (own_fields row)) = false -> n = key) /\
     (lookup_field key (own_fields row) = JObj [] ->
      n = (key ++ ".undefined")%string)).
Proof.
  split.
  - intros Hrow. unfold Grid.getColumnName, get. now rewrite Hrow.
  - intros Hown. pose proof (keys_not_nullish key row Hown) as Hrow.
    exists (inferred_name key row).
    split; [now apply getColumnName_inferred |].
    unfold inferred_name.
    destruct (lookup_field key (own_fields row)) as [| | b | n | s | fields];
      [| | | | | destruct fields as [| [firstKey firstKeyValue] rest]];
      (split; [first [apply prefix_append | apply prefix_refl] |]);
      (split; intros H; first [reflexivity | discriminate H]).
Qed.

Lemma getColumnName_edges_witness :
  Grid.getColumnName "name" JNull = TypeError /\
  In "tags"%string (keys (JObj [("id"%string, JNum 4); ("tags"%string, JObj [])])) /\
  exists n : string,
    Grid.getColumnName "tags" (JObj [("id"%string, JNum 4); ("tags"%string, JObj [])])
      = Ok n /\
    n = "tags.undefined"%string.
Proof.
  assert (Hown : In "tags"%string
                    (keys (JObj [("id"%string, JNum 4); ("tags"%string, JObj [])])))
    by (right; left; reflexivity).
  split; [| split; [exact Hown |]].
  - apply (proj1 (getColumnName_edges "name" JNull)). reflexivity.
  - destruct (proj2 (getColumnName_edges "tags"
                       (JObj [("id"%string, JNum 4); ("tags"%string, JObj [])]))
                Hown) as [n (Heq & _ & _ & Hempty)].
    exists n. split; [exact Heq | exact (Hempty eq_refl)].
Defined.

(** [getNestedKey] never descends: on [null] and [undefined] it throws,
    and on anything else it answers the first key of its argument
    ([undefined] when there is none), whatever that key holds. *)
Theorem getNestedKey_first_key_only (object : JValue) :
  (nullish object = true -> Grid.getNestedKey object = TypeError) /\
  (nullish object = false ->
   Grid.getNestedKey object = Ok (hd_error (keys object))).
Proof.
  split; intros Hnull.
  - destruct object; try discriminate; reflexivity.
  - destruct object as [| | b | n | s | fields]; try discriminate;
      try reflexivity.
    now apply getNestedKey_first_key.
Qed.

Lemma getNestedKey_first_key_only_witness :
  Grid.getNestedKey JNull = TypeError /\
  Grid.getNestedKey Examples.china = Ok (Some "country"%string) /\
  Grid.getNestedKey (JObj []) = Ok None.
Proof.
  split; [| split].
  - apply (proj1 (getNestedKey_first_key_only JNull)). reflexivity.
  - apply (proj2 (getNestedKey_first_key_only Examples.china)). reflexivity.
  - apply (proj2 (getNestedKey_first_key_only (JObj []))). reflexivity.
Defined.

Lemma lookup_scalar (k : string) (fields : list (string * JValue)) :
  Forall (fun field => isObject (snd field) = false) fields ->
  isObject (lookup_field k fields) = false.
Proof.
  induction 1 as [| [k' v] rest Hv _ IH]; simpl; [reflexivity |].
  destruct (String.eqb k k'); assumption.
Qed.

(** Over a first row that holds scalars only, the columns inferred are
    named and headed by the keys of the row. *)
Theorem setColumnsFromData_flat (data : list JValue) (g : Grid.t) :
  Forall (fun field => isObject (snd field) = false)
         (own_fields (nth 0 data JUndefined)) ->
  Grid.setColumnsFromData data g =
    Ok (Grid.with_columns
          (Grid.columns g
           ++ map (fun key => mkGridColumn key key) (keys (nth 0 data JUndefined)))
          g).
Proof.
  intros Hflat.
  unfold Grid.setColumnsFromData. cbv zeta.
  destruct (nullish (nth 0 data JUndefined)) eqn:Hrow.
  - rewrite (keys_nullish _ Hrow). simpl. now rewrite app_nil_r.
  - rewrite push_columns_inferred by assumption. cbn [bind].
    do 3 f_equal. apply map_ext. intros key. f_equal.
    unfold inferred_name.
    pose proof (lookup_scalar key _ Hflat) as Hscalar.
    destruct (lookup_field key (own_fields (nth 0 data JUndefined)));
      try reflexivity; discriminate.
Qed.

Lemma setColumnsFromData_flat_witness :
  Grid.setColumnsFromData [Examples.alice; Examples.china]
                          (Examples.grid 1 5 (PageSizeNum 10) 2) =
    Ok (Grid.with_columns
          [mkGridColumn "name" "name"; mkGridColumn "selected" "selected"]
          (Examples.grid 1 5 (PageSizeNum 10) 2)).
Proof.
  apply (setColumnsFromData_flat [Examples.alice; Examples.china]
           (Examples.grid 1 5 (PageSizeNum 10) 2)).
  repeat constructor.
Defined.

(** ** Refreshing and rendering *)

Lemma refresh_closed (g : Grid.t) :
  Grid.refresh g =
  Ok (let rows := GridDataProvider.getData (Grid.dataProvider g) in
      let shown := Grid.with_data (Some rows) g in
      let headed :=
        if negb (Grid.isEmpty rows) && Grid.isEmpty (Grid.columns g)
        then Grid.with_columns (inferred_columns (nth 0 rows JUndefined)) shown
        else shown in
      if opt_paging (Grid.options g) then Grid.paginate headed else headed).
Proof.
  unfold Grid.refresh. cbv zeta.
  destruct (negb (Grid.isEmpty (GridDataProvider.getData (Grid.dataProvider g))))
    eqn:Hrows; [| reflexivity].
  simpl andb. cbn [Grid.columns Grid.with_data].
  destruct (Grid.columns g) as [| c cs] eqn:Hcols; [| reflexivity].
  cbn [Grid.isEmpty]. rewrite setColumnsFromData_closed. cbn [bind].
  cbn [Grid.columns Grid.with_data]. rewrite Hcols. reflexivity.
Qed.

Lemma grid_ext (g g' : Grid.t) :
  Grid.options g = Grid.options g' ->
  Grid.columns g = Grid.columns g' ->
  Grid.dataProvider g = Grid.dataProvider g' ->
  Grid.data g = Grid.data g' ->
  Grid.pageIndex g = Grid.pageIndex g' ->
  Grid.pages g = Grid.pages g' ->
  g = g'.
Proof. destruct g, g'. simpl. congruence. Qed.

(** The window depends on the options, the provider and the page index
    only. *)
Lemma paginate_pages_ext (g g' : Grid.t) :
  Grid.options g = Grid.options g' ->
  Grid.dataProvider g = Grid.dataProvider g' ->
  Grid.pageIndex g = Grid.pageIndex g' ->
  Grid.pages (Grid.paginate g) = Grid.pages (Grid.paginate g').
Proof.
  destruct g, g'. simpl. intros -> -> ->.
  unfold Grid.paginate, Grid.getTotalPages. cbv zeta. simpl.
  repeat match goal with
         | |- context [if ?c then _ else _] => destruct c
         end; reflexivity.
Qed.

(** The grid a refresh leaves, field by field. *)
Lemma refresh_fields (g : Grid.t) :
  exists g',
    Grid.refresh g = Ok g' /\
    Grid.options g' = Grid.options g /\
    Grid.dataProvider g' = Grid.dataProvider g /\
    Grid.pageIndex g' = Grid.pageIndex g /\
    Grid.data g' = Some (GridDataProvider.getData (Grid.dataProvider g)) /\
    Grid.columns g' =
      (if negb (Grid.isEmpty (GridDataProvider.getData (Grid.dataProvider g)))
          && Grid.isEmpty (Grid.columns g)
       then inferred_columns
              (nth 0 (GridDataProvider.getData (Grid.dataProvider g)) JUndefined)
       else Grid.columns g) /\
    Grid.pages g' =
      (if opt_paging (Grid.options g)
       then Grid.pages (Grid.paginate g)
       else Grid.pages g).
Proof.
  eexists. split; [apply refresh_closed |]. cbv zeta.
  destruct (opt_paging (Grid.options g));
    destruct (negb (Grid.isEmpty (GridDataProvider.getData (Grid.dataProvider g)))
              && Grid.isEmpty (Grid.columns g));
    try rewrite paginate_frame; repeat split;
    apply paginate_pages_ext; reflexivity.
Qed.

Lemma refresh_again (g : Grid.t) :
  exists g',
    Grid.refresh g = Ok g' /\ Grid.refresh g' = Ok g' /\
    Grid.options g' = Grid.options g /\
    Grid.dataProvider g' = Grid.dataProvider g /\
    Grid.pageIndex g' = Grid.pageIndex g.
Proof.
  destruct (refresh_fields g)
    as [g' (Heq & Hopt & Hdp & Hpi & Hdata & Hcols & Hpages)].
  exists g'. split; [exact Heq |].
  split; [| repeat split; assumption].
  destruct (refresh_fields g')
    as [g'' (Heq' & Hopt' & Hdp' & Hpi' & Hdata' & Hcols' & Hpages')].
  rewrite Heq'. f_equal. apply grid_ext; try congruence.
  - rewrite Hcols', Hdp, Hcols.
    destruct (negb (Grid.isEmpty (GridDataProvider.getData (Grid.dataProvider g))));
      [| reflexivity].
    destruct (Grid.columns g) as [| c cs]; [| reflexivity].
    simpl.
    destruct (inferred_columns
                (nth 0 (GridDataProvider.getData (Grid.dataProvider g)) JUndefined));
      reflexivity.
  - rewrite Hpages', Hopt, Hpages.
    destruct (opt_paging (Grid.options g)); [| reflexivity].
    apply paginate_pages_ext; assumption.
Qed.

Lemma with_dataProvider_twice (g : Grid.t) (dp dp' : GridDataProvider.t) :
  Grid.with_dataProvider dp (Grid.with_dataProvider dp' g) =
  Grid.with_dataProvider dp g.
Proof. reflexivity. Qed.

Lemma with_dataProvider_id (g : Grid.t) (dp : GridDataProvider.t) :
  Grid.dataProvider g = dp -> Grid.with_dataProvider dp g = g.
Proof. intros <-. destruct g. reflexivity. Qed.

(** Rendering the same answer twice leaves the grid the first render left,
    and asks and logs the same: rows, columns and page list do not pile
    up. *)
Theorem render_twice (o : GridDataProvider.Outcome) (g : Grid.t) :
  exists g' events,
    Grid.render o g = Ok (g', events) /\
    Grid.render o g' = Ok (g', events).
Proof.
  unfold Grid.render. cbv zeta. cbn [Grid.options Grid.with_dataProvider].
  destruct (opt_url (Grid.options g)) as [url |] eqn:Hurl;
    [destruct o as [recs total | err] |].
  - match goal with
    | |- context [Grid.refresh ?x] =>
        destruct (refresh_again x) as [g' (Heq & Hagain & Hopt & Hdp & Hpi)]
    end.
    rewrite Heq. cbn [bind]. do 2 eexists. split; [reflexivity |].
    cbn [Grid.options Grid.with_dataProvider Grid.dataProvider Grid.pageIndex] in *.
    rewrite Hopt, Hurl, Hdp, Hpi.
    cbn [GridDataProvider.fetch GridDataProvider.with_page GridDataProvider.page
         GridDataProvider.pageSize GridDataProvider.filters
         GridDataProvider.sortColumn GridDataProvider.sortType
         GridDataProvider.records GridDataProvider.totalCount] in *.
    rewrite ?with_dataProvider_twice.
    rewrite with_dataProvider_id by (rewrite Hdp; reflexivity).
    rewrite Hagain. reflexivity.
  - do 2 eexists. split; [reflexivity |].
    cbn [Grid.options Grid.with_dataProvider Grid.dataProvider Grid.pageIndex].
    rewrite Hurl. reflexivity.
  - match goal with
    | |- context [Grid.refresh ?x] =>
        destruct (refresh_again x) as [g' (Heq & Hagain & Hopt & Hdp & Hpi)]
    end.
    rewrite Heq. cbn [bind fst]. do 2 eexists. split; [reflexivity |].
    cbn [Grid.options Grid.with_dataProvider Grid.dataProvider Grid.pageIndex] in *.
    rewrite Hopt, Hurl, Hdp, Hpi.
    cbn [GridDataProvider.with_page GridDataProvider.page
         GridDataProvider.pageSize GridDataProvider.filters
         GridDataProvider.sortColumn GridDataProvider.sortType
         GridDataProvider.records GridDataProvider.totalCount] in *.
    rewrite ?with_dataProvider_twice.
    rewrite with_dataProvider_id by (rewrite Hdp; reflexivity).
    rewrite Hagain. reflexivity.
Qed.



(** A render of a remote source that is answered asks once, for the page
    of the page index, and logs nothing; it shows the rows of the answer
    and leaves the window of the state it ends in when paging is on and the
    page list it found when paging is off. *)
Theorem render_success (g : Grid.t) (url : string) (recs : list JValue) (total : Z) :
  opt_url (Grid.options g) = Some url ->
  exists g',
    Grid.render (GridDataProvider.Success recs total) g =
      Ok (g', [Grid.EvFetch (Grid.pageIndex g)]) /\
    Grid.getPageIndex g' = Grid.pageIndex g /\
    snd (Grid.getData g') = Some recs /\
    GridDataProvider.getTotalCount (Grid.dataProvider g') = total /\
    Grid.pages g' =
      (if opt_paging (Grid.options g)
       then Grid.pages (Grid.paginate g')
       else Grid.pages g).
Proof.
  intros Hurl. unfold Grid.render. cbv zeta.
  cbn [Grid.options Grid.with_dataProvider]. rewrite Hurl.
  match goal with
  | |- context [Grid.refresh ?x] =>
      destruct (refresh_fields x)
        as [g' (Heq & Hopt & Hdp & Hpi & Hdata & Hcols & Hpages)]
  end.
  rewrite Heq. cbn [bind]. exists g'. split; [reflexivity |].
  repeat split.
  - exact Hpi.
  - simpl. rewrite Hdata. reflexivity.
  - rewrite Hdp. reflexivity.
  - rewrite Hpages. cbn [Grid.options Grid.with_dataProvider Grid.pages].
    destruct (opt_paging (Grid.options g)); [| reflexivity].
    apply paginate_pages_ext; symmetry; assumption.
Qed.

Lemma render_success_witness :
  exists g',
    Grid.render (GridDataProvider.Success [Examples.carol] 9) Examples.remote =
      Ok (g', [Grid.EvFetch 2]) /\
    snd (Grid.getData g') = Some [Examples.carol].
Proof.
  destruct (render_success Examples.remote "/users" [Examples.carol] 9 eq_refl)
    as [g' (Heq & _ & Hdata & _)].
  exists g'. split; [exact Heq | exact Hdata].
Defined.

(** A page change whose fetch fails is not taken back: the grid and its
    provider are on the new page index, over the rows and the page list of
    the page before. *)
Theorem render_failure_after_page_change (g : Grid.t) (url : string)
        (pageIndex : Z) (err : JValue) :
  opt_url (Grid.options g) = Some url ->
  exists g',
    Grid.render (GridDataProvider.Failure err) (Grid.setPageIndex pageIndex g) =
      Ok (g', [Grid.EvFetch pageIndex; Grid.EvConsoleLog err]) /\
    Grid.getPageIndex g' = pageIndex /\
    GridDataProvider.page (Grid.dataProvider g') = pageIndex /\
    snd (Grid.getData g') = snd (Grid.getData g) /\
    Grid.pages g' = Grid.pages g.
Proof.
  intros Hurl. unfold Grid.render. cbv zeta.
  cbn [Grid.options Grid.with_dataProvider Grid.setPageIndex Grid.with_pageIndex].
  rewrite Hurl. eexists. split; [reflexivity |]. repeat split.
Qed.

Lemma render_failure_after_page_change_witness :
  exists g',
    Grid.render (GridDataProvider.Failure JNull)
                (Grid.setPageIndex 3 Examples.remote) =
      Ok (g', [Grid.EvFetch 3; Grid.EvConsoleLog JNull]) /\
    Grid.getPageIndex g' = 3 /\
    Grid.pages g' = [1; 2; 3].
Proof.
  destruct (render_failure_after_page_change Examples.remote "/users" 3 JNull eq_refl)
    as [g' (Heq & Hpi & _ & _ & Hpages)].
  exists g'. split; [exact Heq |]. split; [exact Hpi | exact Hpages].
Defined.

(** ** Sorted columns *)

(** What [getSortType] proposes for a column follows from how the column
    is shown: descending for a column sorted ascending, ascending for one
    sorted descending, the sort type in place for a column that is not the
    sort column; and for the sort column it is never anything but one of
    the two directions, ascending whenever the sort type in place is not
    ascending (be it descending or neither of the two). *)
Theorem getSortType_of_shown_column (column : GridColumn) (g : Grid.t) :
  (Grid.isSortedBy column (Some GridSort.TYPE_ASC) g = true ->
   Grid.getSortType column g = GridSort.TYPE_DESC) /\
  (Grid.isSortedBy column (Some GridSort.TYPE_DESC) g = true ->
   Grid.getSortType column g = GridSort.TYPE_ASC) /\
  (Grid.isSortedBy column None g = false ->
   Grid.getSortType column g = GridDataProvider.getSortType (Grid.dataProvider g)) /\
  (Grid.isSortedBy column None g = true ->
   Grid.getSortType column g = GridSort.TYPE_ASC \/
   Grid.getSortType column g = GridSort.TYPE_DESC) /\
  (Grid.isSortedBy column None g = true ->
   GridDataProvider.getSortType (Grid.dataProvider g) <> GridSort.TYPE_ASC ->
   Grid.getSortType column g = GridSort.TYPE_ASC).
Proof.
  unfold Grid.isSortedBy, Grid.getSortType. cbv zeta.
  destruct (Grid.differs (name column)
              (GridDataProvider.getSortColumn (Grid.dataProvider g))); simpl.
  - repeat split; intros H; try discriminate H; reflexivity.
  - split; [| split; [| split; [| split]]]; intros H; try discriminate H.
    + apply String.eqb_eq in H. rewrite H. reflexivity.
    + apply String.eqb_eq in H. rewrite H. reflexivity.
    + destruct (String.eqb (GridDataProvider.getSortType (Grid.dataProvider g))
                           GridSort.TYPE_ASC); [right | left]; reflexivity.
    + intros Hother.
      destruct (String.eqb_spec (GridDataProvider.getSortType (Grid.dataProvider g))
                                GridSort.TYPE_ASC); [contradiction | reflexivity].
Qed.

Lemma getSortType_of_shown_column_witness :
  Grid.isSortedBy (mkGridColumn "name" "Name") (Some GridSort.TYPE_ASC)
                  Examples.remote = true /\
  Grid.getSortType (mkGridColumn "name" "Name") Examples.remote = GridSort.TYPE_DESC /\
  Grid.getSortType (mkGridColumn "name" "Name")
    (Grid.setSort "name" (Some "up"%string) Examples.remote) = GridSort.TYPE_ASC.
Proof.
  split; [reflexivity |]. split.
  - apply (proj1 (getSortType_of_shown_column (mkGridColumn "name" "Name")
                    Examples.remote)).
    reflexivity.
  - apply (proj2 (proj2 (proj2 (proj2
             (getSortType_of_shown_column (mkGridColumn "name" "Name")
                (Grid.setSort "name" (Some "up"%string) Examples.remote))))));
      [reflexivity | discriminate].
Defined.

(** Sorting by a column with the type [getSortType] proposes for it shows
    that column, and no column of another name, as sorted with that type;
    and for a sort column in one of the two directions the type proposed
    next is the type there was before: two clicks on a heading come back
    to where they started. *)
Theorem sort_by_proposed_type (column : GridColumn) (g : Grid.t) :
  Grid.isSortedBy column (Some (Grid.getSortType column g))
    (Grid.setSort (name column) (Some (Grid.getSortType column g)) g) = true /\
  (forall other : GridColumn,
      name other <> name column ->
      Grid.isSortedBy other None
        (Grid.setSort (name column) (Some (Grid.getSortType column g)) g) = false) /\
  (Grid.isSortedBy column None g = true ->
   GridDataProvider.getSortType (Grid.dataProvider g) = GridSort.TYPE_ASC \/
   GridDataProvider.getSortType (Grid.dataProvider g) = GridSort.TYPE_DESC ->
   Grid.getSortType column
     (Grid.setSort (name column) (Some (Grid.getSortType column g)) g) =
   GridDataProvider.getSortType (Grid.dataProvider g)).
Proof.
  split; [| split].
  - unfold Grid.isSortedBy, Grid.setSort. simpl.
    now rewrite !String.eqb_refl.
  - intros other Hne. unfold Grid.isSortedBy, Grid.setSort. simpl.
    destruct (String.eqb_spec (name other) (name column));
      [contradiction | reflexivity].
  - intros Hsorted Htype.
    unfold Grid.getSortType at 1. unfold Grid.setSort. simpl.
    rewrite String.eqb_refl. simpl.
    unfold Grid.isSortedBy in Hsorted. simpl in Hsorted.
    unfold Grid.getSortType.
    destruct (Grid.differs (name column)
                (GridDataProvider.getSortColumn (Grid.dataProvider g)));
      [discriminate |].
    destruct Htype as [-> | ->]; reflexivity.
Qed.

Lemma sort_by_proposed_type_witness :
  Grid.getSortType (mkGridColumn "name" "Name")
    (Grid.setSort "name"
       (Some (Grid.getSortType (mkGridColumn "name" "Name") Examples.remote))
       Examples.remote) = GridSort.TYPE_ASC.
Proof.
  apply (proj2 (proj2 (sort_by_proposed_type (mkGridColumn "name" "Name")
                         Examples.remote)));
    [reflexivity | left; reflexivity].
Defined.

(** ** Page-size options *)

(** The page-size options are enabled exactly when paging is on and the
    option is not [false]: an empty list of sizes, or none at all, leaves
    them enabled. *)
Theorem isPageSizeOptionsEnabled_spec (pageSizeOptions : JValue) (g : Grid.t) :
  Grid.isPageSizeOptionsEnabled pageSizeOptions g = true <->
  opt_paging (Grid.options g) = true /\ pageSizeOptions <> JBool false.
Proof.
  unfold Grid.isPageSizeOptionsEnabled.
  destruct (opt_paging (Grid.options g)); simpl.
  - destruct pageSizeOptions as [| | [|] | n | s | fields]; simpl;
      rewrite ?orb_true_r;
      split; try (intros _; split; [reflexivity | discriminate]);
      try reflexivity.
    + discriminate.
    + intros [_ H]. now elim H.
  - split; [discriminate | intros [H _]; discriminate H].
Qed.

Lemma isPageSizeOptionsEnabled_spec_witness :
  Grid.isPageSizeOptionsEnabled (JObj []) Examples.remote = true /\
  Grid.isPageSizeOptionsEnabled JUndefined Examples.remote = true.
Proof.
  split.
  - apply (proj2 (isPageSizeOptionsEnabled_spec (JObj []) Examples.remote)).
    split; [reflexivity | discriminate].
  - apply (proj2 (isPageSizeOptionsEnabled_spec JUndefined Examples.remote)).
    split; [reflexivity | discriminate].
Defined.
